(** * The VisitAnalyzer grading driver ([secret_tests/driver.py])

    A shallow embedding of [test_student_code]: the case registry, the
    seven comparison strategies, the per-case [try]/[except] loop, the
    [suppress_output] context manager and the report writer.

    Conventions of the embedding.
    - A Python [float] is modelled by the exact rational its decimal
      literal denotes, extended with [nan] and the two infinities
      ([pyfloat]); a Python [int] is a [Z].
    - A [DataFrame] is its column labels, its row index and its rows of
      cells; a cell carries the type its column stores ([VInt] in an
      integer column, [VFloat] in a float column, [VStr]/[VNone] in an
      object column).  Column labels are unique.
    - The student's module is a black box: loading it, constructing the
      analyzer and calling a method each write some text to the standard
      streams and then either return or raise. *)

From Stdlib Require Import List String Ascii Bool ZArith QArith Qabs Qround Qminmax Lia Permutation.
Import ListNotations.
Open Scope string_scope.
Open Scope list_scope.

(** ** Exceptions and fallible computations *)

Module Py.

(** Classes of the exceptions the driver can meet.  [SystemExit],
    [KeyboardInterrupt] and [GeneratorExit] derive from [BaseException]
    only; every other class derives from [Exception]. *)
Inductive exn_class : Type :=
  | AssertionError | AttributeError | KeyError | IndexError | TypeError
  | ValueError | FileNotFoundError | FileExistsError | IsADirectoryError
  | SyntaxError | OtherError
  | SystemExit | KeyboardInterrupt | GeneratorExit.

(** [isinstance(e, Exception)] *)
Definition is_Exception (c : exn_class) : bool :=
  match c with
  | SystemExit | KeyboardInterrupt | GeneratorExit => false
  | _ => true
  end.

(** An exception object: its class and [str(e)]. *)
Record exn : Type := Exn { e_class : exn_class; e_str : string }.

Inductive result (A : Type) : Type :=
  | Ok (a : A)
  | Raise (e : exn).
Arguments Ok {A} a.
Arguments Raise {A} e.

Definition bind {A B} (m : result A) (k : A -> result B) : result B :=
  match m with
  | Ok a => k a
  | Raise e => Raise e
  end.

(** [assert b] with no message: [str(AssertionError()) = ''] *)
Definition py_assert (b : bool) : result unit :=
  if b then Ok tt else Raise (Exn AssertionError "").

End Py.
Import Py.

Declare Scope py_scope.
Delimit Scope py_scope with py.
Notation "x <- m ;; k" := (bind m (fun x => k))
  (at level 61, m at next level, right associativity) : py_scope.
Notation "m ;;; k" := (bind m (fun _ => k))
  (at level 61, right associativity) : py_scope.
Open Scope py_scope.


(** ** Numbers and cells *)

(** A [float]: a finite value, an infinity or [nan]. *)
Inductive pyfloat : Type :=
  | Fin (q : Q)
  | PInf
  | NInf
  | NaN.

Module Float.
#[local] Open Scope Q_scope.

Definition isnan (a : pyfloat) : bool :=
  match a with NaN => true | _ => false end.

Definition isinf (a : pyfloat) : bool :=
  match a with PInf | NInf => true | _ => false end.

Definition neg (a : pyfloat) : pyfloat :=
  match a with
  | Fin q => Fin (- q)
  | PInf => NInf
  | NInf => PInf
  | NaN => NaN
  end.

(** [a - b] *)
Definition sub (a b : pyfloat) : pyfloat :=
  match a, b with
  | NaN, _ | _, NaN => NaN
  | Fin x, Fin y => Fin (x - y)
  | PInf, PInf | NInf, NInf => NaN
  | PInf, (Fin _ | NInf) | Fin _, NInf => PInf
  | NInf, (Fin _ | PInf) | Fin _, PInf => NInf
  end.

(** [abs(a)] *)
Definition abs (a : pyfloat) : pyfloat :=
  match a with
  | Fin q => Fin (Qabs q)
  | PInf | NInf => PInf
  | NaN => NaN
  end.

(** [a < b]; every comparison with [nan] is false *)
Definition ltb (a b : pyfloat) : bool :=
  match a, b with
  | NaN, _ | _, NaN => false
  | Fin x, Fin y => negb (Qle_bool y x)
  | NInf, NInf | PInf, _ | Fin _, NInf => false
  | NInf, (Fin _ | PInf) | Fin _, PInf => true
  end.

(** [a == b] *)
Definition eqb (a b : pyfloat) : bool :=
  match a, b with
  | Fin x, Fin y => Qeq_bool x y
  | PInf, PInf | NInf, NInf => true
  | _, _ => false
  end.


(** Nearest integer, ties to the even one. *)
Definition rint (q : Q) : Z :=
  let n := Qfloor q in
  match Qcompare (q - inject_Z n) (1 # 2) with
  | Lt => n
  | Gt => (n + 1)%Z
  | Eq => if Z.even n then n else (n + 1)%Z
  end.

(** [round(a, 2)] *)
Definition round2 (a : pyfloat) : pyfloat :=
  match a with
  | Fin q => Fin (inject_Z (rint (q * 100)) / 100)
  | _ => a
  end.

(** [math.isclose(a, b, rel_tol=rtol, abs_tol=atol)]:
    [a == b or abs(a-b) <= max(rtol * max(abs(a), abs(b)), atol)],
    false as soon as an operand is infinite or [nan] and they differ. *)
Definition isclose (rtol atol : Q) (a b : pyfloat) : bool :=
  match a, b with
  | Fin x, Fin y =>
      Qle_bool (Qabs (x - y))
               (Qmax (rtol * Qmax (Qabs x) (Qabs y)) atol)
  | _, _ => eqb a b
  end.

(** One element of [numpy.isclose(a, b, rtol, atol)]:
    [abs(a - b) <= atol + rtol * abs(b)] on finite operands, equality
    on infinities, false on [nan]. *)
Definition np_isclose (rtol atol : Q) (a b : pyfloat) : bool :=
  match a, b with
  | Fin x, Fin y => Qle_bool (Qabs (x - y)) (atol + rtol * Qabs y)
  | _, _ => eqb a b
  end.

End Float.

(** A cell of a table, a column label or an index label. *)
Inductive value : Type :=
  | VInt (z : Z)
  | VFloat (f : pyfloat)
  | VStr (s : string)
  | VNone.

Module Value.

(** The number a cell holds, when it holds one. *)
Definition to_float (v : value) : option pyfloat :=
  match v with
  | VInt z => Some (Fin (inject_Z z))
  | VFloat f => Some f
  | _ => None
  end.

(** Python's [a == b] on scalars. *)
Definition py_eq (a b : value) : bool :=
  match a, b with
  | VStr s, VStr t => String.eqb s t
  | VNone, VNone => true
  | VInt x, VInt y => Z.eqb x y
  | _, _ =>
      match to_float a, to_float b with
      | Some x, Some y => Float.eqb x y
      | _, _ => false
      end
  end.

(** [pandas.isna] on a scalar: [None] and [nan] are missing. *)
Definition isna (v : value) : bool :=
  match v with
  | VNone => true
  | VFloat NaN => true
  | _ => false
  end.

(** Same label: same type and same value (what [Index.equals] together
    with the inferred-type comparison of [assert_index_equal] decides). *)
Definition same (a b : value) : bool :=
  match a, b with
  | VInt x, VInt y => Z.eqb x y
  | VFloat NaN, VFloat NaN => true
  | VFloat x, VFloat y => Float.eqb x y
  | VStr s, VStr t => String.eqb s t
  | VNone, VNone => true
  | _, _ => false
  end.

(** The type name Python prints in a [TypeError]. *)
Definition type_name (v : value) : string :=
  match v with
  | VInt _ => "int"
  | VFloat _ => "float"
  | VStr _ => "str"
  | VNone => "NoneType"
  end.

End Value.

(** [all(eqb x y for x, y in zip(l1, l2)) and len(l1) == len(l2)] *)
Fixpoint list_eqb {A B} (eqb : A -> B -> bool) (l1 : list A) (l2 : list B) : bool :=
  match l1, l2 with
  | [], [] => true
  | x :: l1', y :: l2' => eqb x y && list_eqb eqb l1' l2'
  | _, _ => false
  end.

(** ** Tables *)

(** A [pandas.DataFrame]: column labels, row index, rows of cells. *)
Record DataFrame : Type := mkDF {
  columns : list value;
  index : list value;
  rows : list (list value)
}.

(** What a method of the analyzer can hand back: a table, or no table
    at all ([None]). *)
Inductive pyobj : Type :=
  | PFrame (df : DataFrame)
  | PNone.

Module Pandas.

(** [pd.RangeIndex(n)] *)
Definition RangeIndex (n : nat) : list value :=
  map (fun i => VInt (Z.of_nat i)) (seq 0 n).

(** [pd.DataFrame(data, columns=names)] *)
Definition DataFrame_of (data : list (list value)) (names : list string) : DataFrame :=
  {| columns := map VStr names;
     index := RangeIndex (List.length data);
     rows := data |}.

(** [len(df)] *)
Definition len (df : DataFrame) : nat := List.length (rows df).

(** Position of the column labelled [name]. *)
Fixpoint find_label (name : string) (cols : list value) : option nat :=
  match cols with
  | [] => None
  | c :: cols' =>
      if Value.py_eq c (VStr name) then Some O
      else option_map S (find_label name cols')
  end.

(** The cell of a row at a position; a short row reads as [nan]. *)
Definition cell (i : nat) (row : list value) : value :=
  nth i row (VFloat NaN).

(** [df[name]] as the list of the column's values; [KeyError] prints
    the missing key's [repr]. *)
Definition getitem (df : DataFrame) (name : string) : result (list value) :=
  match find_label name (columns df) with
  | Some i => Ok (map (cell i) (rows df))
  | None => Raise (Exn KeyError ("'" ++ name ++ "'"))
  end.

(** [series == scalar], element by element *)
Definition eq_scalar (s : list value) (v : value) : list bool :=
  map (fun x => Value.py_eq x v) s.

(** Keep the entries whose mask bit is set. *)
Fixpoint select {A} (mask : list bool) (l : list A) : list A :=
  match mask, l with
  | b :: mask', x :: l' => if b then x :: select mask' l' else select mask' l'
  | _, _ => []
  end.

(** [df[mask]] for a boolean mask aligned with the rows *)
Definition filter_rows (df : DataFrame) (mask : list bool) : DataFrame :=
  {| columns := columns df;
     index := select mask (index df);
     rows := select mask (rows df) |}.

(** [arr[0]] on a numpy array *)
Definition values0 (s : list value) : result value :=
  match s with
  | v :: _ => Ok v
  | [] => Raise (Exn IndexError "index 0 is out of bounds for axis 0 with size 0")
  end.

(** [df.reset_index(drop=True)] *)
Definition reset_index (df : DataFrame) : DataFrame :=
  {| columns := columns df;
     index := RangeIndex (len df);
     rows := rows df |}.

(** [df.isnull().values.any()] *)
Definition isnull_any (df : DataFrame) : bool :=
  existsb (existsb Value.isna) (rows df).

(** [series.isna().any()] *)
Definition isna_any (s : list value) : bool := existsb Value.isna s.

(** *** Sorting *)

(** The kind of values a column has to hold for [sort_values] to be
    able to order it: numbers only, or strings only (missing cells
    apart, which sort last). *)
Inductive sort_kind : Type := KNum | KStr.

Definition kind_ok (k : sort_kind) (v : value) : bool :=
  Value.isna v ||
  match k, v with
  | KNum, (VInt _ | VFloat _) => true
  | KStr, VStr _ => true
  | _, _ => false
  end.

Definition sortable (keys : list value) : bool :=
  forallb (kind_ok KNum) keys || forallb (kind_ok KStr) keys.

(** [a > b] between two cells that are present and of the same kind *)
Definition key_gtb (a b : value) : bool :=
  match a, b with
  | VStr s, VStr t => String.ltb t s
  | _, _ =>
      match Value.to_float a, Value.to_float b with
      | Some x, Some y => Float.ltb y x
      | _, _ => false
      end
  end.

(** [a] has to stand before [b] in descending order, missing last. *)
Definition before (a b : value) : bool :=
  (negb (Value.isna a) && Value.isna b) ||
  (negb (Value.isna a) && negb (Value.isna b) && key_gtb a b).

Fixpoint insert_desc {A} (k : value) (x : A) (l : list (value * A)) : list (value * A) :=
  match l with
  | [] => [(k, x)]
  | (k', x') :: l' =>
      if before k' k then (k', x') :: insert_desc k x l'
      else (k, x) :: l
  end.

Fixpoint sort_desc {A} (l : list (value * A)) : list (value * A) :=
  match l with
  | [] => []
  | (k, x) :: l' => insert_desc k x (sort_desc l')
  end.

(** [df.sort_values(by=name, ascending=False)] *)
Definition sort_values_desc (df : DataFrame) (name : string) : result DataFrame :=
  keys <- getitem df name ;;
  if sortable keys then
    let sorted := sort_desc (combine keys (combine (index df) (rows df))) in
    Ok {| columns := columns df;
          index := map (fun p => fst (snd p)) sorted;
          rows := map (fun p => snd (snd p)) sorted |}
  else
    Raise (Exn TypeError "'<' not supported between instances of 'str' and 'int'").

(** [df.iloc[0][name]] *)
Definition iloc0_item (df : DataFrame) (name : string) : result value :=
  match rows df with
  | [] => Raise (Exn IndexError "single positional indexer is out-of-bounds")
  | r :: _ =>
      match find_label name (columns df) with
      | Some i => Ok (cell i r)
      | None => Raise (Exn KeyError ("'" ++ name ++ "'"))
      end
  end.

(** *** [pandas.testing.assert_frame_equal(left, right, check_dtype=False)] *)

Definition rtol : Q := 1 # 100000.
Definition atol : Q := 1 # 100000000.

(** Two cells at the same place of the two tables.  With
    [check_dtype=False] and every other option at its default, a pair
    of columns one of which is an integer column is compared exactly,
    a pair of float columns with [math.isclose(rel_tol=1e-5,
    abs_tol=1e-8)], strings exactly; two missing cells agree. *)
Definition cell_equal (a b : value) : bool :=
  match a, b with
  | VStr s, VStr t => String.eqb s t
  | VFloat x, VFloat y =>
      (Float.isnan x && Float.isnan y) || Float.isclose rtol atol x y
  | VInt _, (VInt _ | VFloat _) | VFloat _, VInt _ => Value.py_eq a b
  | VNone, _ => Value.isna b
  | _, VNone => Value.isna a
  | _, _ => false
  end.

(** Only the heading of pandas' report is kept as the message. *)
Definition assert_frame_equal (left right : DataFrame) : result unit :=
  if negb (Nat.eqb (len left) (len right) &&
           Nat.eqb (List.length (columns left)) (List.length (columns right)))
  then Raise (Exn AssertionError "DataFrame are different")
  else if negb (list_eqb Value.same (index left) (index right))
  then Raise (Exn AssertionError "DataFrame.index are different")
  else if negb (list_eqb Value.same (columns left) (columns right))
  then Raise (Exn AssertionError "DataFrame.columns are different")
  else if negb (list_eqb (list_eqb cell_equal) (rows left) (rows right))
  then Raise (Exn AssertionError "DataFrame.iloc are different")
  else Ok tt.

(** *** numpy *)

(** The numbers of a column, or [TypeError] on a cell that is none. *)
Fixpoint to_floats (s : list value) : result (list pyfloat) :=
  match s with
  | [] => Ok []
  | v :: s' =>
      match Value.to_float v with
      | Some f => fs <- to_floats s' ;; Ok (f :: fs)
      | None =>
          Raise (Exn TypeError
                   ("ufunc not supported for the input type '" ++ Value.type_name v ++ "'"))
      end
  end.

(** [np.allclose(a, b)] with the default [rtol=1e-05, atol=1e-08],
    on one-dimensional operands and with numpy's broadcasting. *)
Definition allclose (a b : list pyfloat) : result bool :=
  let close := Float.np_isclose rtol atol in
  if Nat.eqb (List.length a) (List.length b) then Ok (list_eqb close a b)
  else match a, b with
       | [x], _ => Ok (forallb (close x) b)
       | _, [y] => Ok (forallb (fun x => close x y) a)
       | _, _ => Raise (Exn ValueError "operands could not be broadcast together")
       end.

End Pandas.

(** ** Scenarios *)

Inductive section : Type := Visible | Hidden.

(** One positional argument of a call. *)
Inductive arg : Type :=
  | ARows (data : list (list value))
  | AFrame (df : DataFrame)
  | AInt (z : Z).

(** [case["input"]]: a single object, or a tuple that is unpacked. *)
Inductive case_input : Type :=
  | Single (a : arg)
  | Tuple (args : list arg).

(** A scenario dictionary; an absent key is [None]. *)
Record case : Type := mkCase {
  id : string;
  desc : string;
  func : string;
  input : case_input;
  expected_cols : option (list string);
  expected : option DataFrame;
  expected_values : option (list Q);
  expected_ids : option (list Z);
  expected_dict : option (list (string * Q));
  expected_len : option nat;
  expected_top_charge : option Q;
  check_for_inf_or_nan : option bool
}.

Module Registry.
Import Pandas.
#[local] Open Scope Q_scope.

Definition visit_columns : list string :=
  ["PatientID"; "Department"; "Duration"; "Charges"].

(** One visit row [[pid, dept, duration, charges]] with an integer
    duration and a float charge. *)
Definition visit (pid : Z) (dept : string) (duration : Z) (charges : Q) : list value :=
  [VInt pid; VStr dept; VInt duration; VFloat (Fin charges)].

(** A visit row of a table whose [Duration] column is a float column
    ([None] is stored as [nan]). *)
Definition visit_f (pid : Z) (dept : string) (duration : pyfloat) (charges : Q) : list value :=
  [VInt pid; VStr dept; VFloat duration; VFloat (Fin charges)].

(** A visit row of a table whose columns are all integers but
    [Department]. *)
Definition visit_i (pid : Z) (dept : string) (duration charges : Z) : list value :=
  [VInt pid; VStr dept; VInt duration; VInt charges].

Definition TC1 : case :=
  {| id := "TC1";
     desc := "Creating patient visit DataFrame";
     func := "create_visit_df";
     input := Single (ARows [visit 101 "Cardiology" 45 1500.0;
                             visit 102 "Neurology" 30 1200.0]);
     expected_cols := Some ["PatientID"; "Department"; "Duration"; "Charges"];
     expected := None; expected_values := None; expected_ids := None;
     expected_dict := None; expected_len := None;
     expected_top_charge := None; check_for_inf_or_nan := None |}.

Definition TC2 : case :=
  {| id := "TC2";
     desc := "Computing total charges per patient";
     func := "total_charges_per_patient";
     input := Single (AFrame (DataFrame_of
                [visit 101 "Cardiology" 45 1500.0;
                 visit 101 "Cardiology" 50 1800.0] visit_columns));
     expected_cols := None;
     expected := Some (DataFrame_of [[VInt 101; VFloat (Fin 3300.0)]]
                                    ["PatientID"; "Total Charges"]);
     expected_values := None; expected_ids := None;
     expected_dict := None; expected_len := None;
     expected_top_charge := None; check_for_inf_or_nan := None |}.

Definition TC3 : case :=
  {| id := "TC3";
     desc := "Adding cost per minute column";
     func := "add_cost_per_minute";
     input := Single (AFrame (DataFrame_of
                [visit 101 "Cardiology" 45 1500.0;
                 visit 102 "Neurology" 30 1200.0] visit_columns));
     expected_cols := None; expected := None;
     expected_values := Some [33.33; 40.0];
     expected_ids := None;
     expected_dict := None; expected_len := None;
     expected_top_charge := None; check_for_inf_or_nan := None |}.

Definition TC4 : case :=
  {| id := "TC4";
     desc := "Filtering frequent visitors correctly";
     func := "frequent_visitors";
     input := Tuple [AFrame (DataFrame_of
                       [visit 201 "Cardiology" 45 1500.0;
                        visit 202 "Cardiology" 50 1800.0;
                        visit 201 "Cardiology" 40 1600.0;
                        visit 203 "Neurology" 30 1200.0] visit_columns);
                     AInt 1];
     expected_cols := None; expected := None; expected_values := None;
     expected_ids := Some [201%Z];
     expected_dict := None; expected_len := None;
     expected_top_charge := None; check_for_inf_or_nan := None |}.

Definition TC5 : case :=
  {| id := "TC5";
     desc := "Calculating department-level average duration";
     func := "average_duration_per_department";
     input := Single (AFrame (DataFrame_of
                [visit 101 "Cardiology" 40 1500.0;
                 visit 102 "Cardiology" 50 1800.0;
                 visit 103 "Neurology" 30 1200.0] visit_columns));
     expected_cols := None; expected := None; expected_values := None;
     expected_ids := None;
     expected_dict := Some [("Cardiology", 45.0); ("Neurology", 30.0)];
     expected_len := None;
     expected_top_charge := None; check_for_inf_or_nan := None |}.

Definition HTC1 : case :=
  {| id := "HTC1";
     desc := "Cleaning nulls and sorting by charges";
     func := "clean_and_sort_visits";
     input := Single (AFrame (DataFrame_of
                [visit_f 101 "Cardiology" NaN 1500.0;
                 visit_f 102 "Neurology" (Fin 30.0) 1700.0;
                 visit_f 103 "Ortho" (Fin 35.0) 1400.0;
                 visit_f 104 "Cardiology" NaN 1000.0;
                 visit_f 105 "Ortho" (Fin 32.0) 1300.0] visit_columns));
     expected_cols := None; expected := None; expected_values := None;
     expected_ids := None; expected_dict := None;
     expected_len := Some 3%nat;
     expected_top_charge := Some 1700.0;
     check_for_inf_or_nan := None |}.

Definition HTC2 : case :=
  {| id := "HTC2";
     desc := "Handling zero duration edge case in cost/min calc";
     func := "add_cost_per_minute";
     input := Single (AFrame (DataFrame_of
                [visit 101 "Cardiology" 0 1500.0;
                 visit 102 "Neurology" 30 1200.0] visit_columns));
     expected_cols := None; expected := None; expected_values := None;
     expected_ids := None; expected_dict := None; expected_len := None;
     expected_top_charge := None;
     check_for_inf_or_nan := Some true |}.

Definition HTC3 : case :=
  {| id := "HTC3";
     desc := "Correct filtering logic for visit frequency";
     func := "frequent_visitors";
     input := Tuple [AFrame (DataFrame_of
                       [visit_i 101 "A" 10 100;
                        visit_i 102 "B" 20 200;
                        visit_i 102 "C" 30 300;
                        visit_i 103 "D" 40 400] visit_columns);
                     AInt 1];
     expected_cols := None; expected := None; expected_values := None;
     expected_ids := Some [102%Z];
     expected_dict := None; expected_len := None;
     expected_top_charge := None; check_for_inf_or_nan := None |}.

(** The list [test_cases] of [test_student_code]. *)
Definition test_cases : list (section * case) :=
  [ (Visible, TC1); (Visible, TC2); (Visible, TC3); (Visible, TC4);
    (Visible, TC5); (Hidden, HTC1); (Hidden, HTC2); (Hidden, HTC3) ].

End Registry.

(** ** The comparison strategies (the [if]/[elif] chain of the loop) *)

Module Check.
Import Pandas.
#[local] Open Scope Q_scope.

(** [result.attr] where the driver expects a table *)
Definition frame_attr (attr : string) (result : pyobj) : Py.result DataFrame :=
  match result with
  | PFrame df => Ok df
  | PNone =>
      Raise (Exn AttributeError
               ("'NoneType' object has no attribute '" ++ attr ++ "'"))
  end.

(** [result[...]] where the driver expects a table *)
Definition subscript (result : pyobj) : Py.result DataFrame :=
  match result with
  | PFrame df => Ok df
  | PNone => Raise (Exn TypeError "'NoneType' object is not subscriptable")
  end.

(** [len(result)] *)
Definition py_len (result : pyobj) : Py.result nat :=
  match result with
  | PFrame df => Ok (len df)
  | PNone => Raise (Exn TypeError "object of type 'NoneType' has no len()")
  end.

(** [actual - expected_avg] with a float on the right *)
Definition py_sub (actual : value) (expected_avg : Q) : Py.result pyfloat :=
  match Value.to_float actual with
  | Some a => Ok (Float.sub a (Fin expected_avg))
  | None =>
      Raise (Exn TypeError
               ("unsupported operand type(s) for -: '" ++ Value.type_name actual
                ++ "' and 'float'"))
  end.

(** [set(l1) == set(l2)] *)
Definition set_eqb (l1 l2 : list value) : bool :=
  forallb (fun x => existsb (Value.py_eq x) l2) l1 &&
  forallb (fun y => existsb (fun x => Value.py_eq x y) l1) l2.

(** [assert list(result.columns) == case["expected_cols"]] *)
Definition check_expected_cols (result : pyobj) (cols : list string) : Py.result unit :=
  df <- frame_attr "columns" result ;;
  py_assert (list_eqb Value.py_eq (columns df) (map VStr cols)).

(** [pd.testing.assert_frame_equal(result.reset_index(drop=True),
      case["expected"].reset_index(drop=True), check_dtype=False)] *)
Definition check_expected (result : pyobj) (e : DataFrame) : Py.result unit :=
  df <- frame_attr "reset_index" result ;;
  assert_frame_equal (reset_index df) (reset_index e).

(** [col = result["CostPerMinute"].round(2).tolist()]
    [assert np.allclose(col, case["expected_values"])] *)
Definition check_expected_values (result : pyobj) (vals : list Q) : Py.result unit :=
  df <- subscript result ;;
  s <- getitem df "CostPerMinute" ;;
  fs <- to_floats s ;;
  b <- allclose (map Float.round2 fs) (map Fin vals) ;;
  py_assert b.

(** [ids = set(result["PatientID"].tolist())]
    [assert ids == set(case["expected_ids"])] *)
Definition check_expected_ids (result : pyobj) (ids : list Z) : Py.result unit :=
  df <- subscript result ;;
  s <- getitem df "PatientID" ;;
  py_assert (set_eqb s (map VInt ids)).

(** [actual = result[result["Department"] == dept]["Average Duration"].values[0]] *)
Definition actual_average (result : pyobj) (dept : string) : Py.result value :=
  df <- subscript result ;;
  depts <- getitem df "Department" ;;
  col <- getitem (filter_rows df (eq_scalar depts (VStr dept))) "Average Duration" ;;
  values0 col.

(** [for dept, expected_avg in case["expected_dict"].items():]
    [    actual = ...]
    [    assert abs(actual - expected_avg) < 0.1] *)
Fixpoint check_expected_dict (result : pyobj) (items : list (string * Q)) : Py.result unit :=
  match items with
  | [] => Ok tt
  | (dept, expected_avg) :: items' =>
      actual <- actual_average result dept ;;
      d <- py_sub actual expected_avg ;;
      py_assert (Float.ltb (Float.abs d) (Fin 0.1)) ;;;
      check_expected_dict result items'
  end.

(** [case["expected_top_charge"]] *)
Definition get_expected_top_charge (c : case) : Py.result Q :=
  match expected_top_charge c with
  | Some q => Ok q
  | None => Raise (Exn KeyError "'expected_top_charge'")
  end.

(** [top_charge = result.sort_values(by="Charges", ascending=False).iloc[0]["Charges"]] *)
Definition top_charge (df : DataFrame) : Py.result value :=
  sorted <- sort_values_desc df "Charges" ;;
  iloc0_item sorted "Charges".

(** [assert len(result) == case["expected_len"]]
    [assert not result.isnull().values.any()]
    [top_charge = ...]
    [assert top_charge == case["expected_top_charge"]] *)
Definition check_expected_len (c : case) (result : pyobj) (n : nat) : Py.result unit :=
  k <- py_len result ;;
  py_assert (Nat.eqb k n) ;;;
  df <- frame_attr "isnull" result ;;
  py_assert (negb (isnull_any df)) ;;;
  top <- top_charge df ;;
  e <- get_expected_top_charge c ;;
  py_assert (Value.py_eq top (VFloat (Fin e))).

(** [assert not result["CostPerMinute"].isna().any()]
    [assert not np.isinf(result["CostPerMinute"]).any()] *)
Definition check_inf_or_nan (result : pyobj) : Py.result unit :=
  df <- subscript result ;;
  s <- getitem df "CostPerMinute" ;;
  py_assert (negb (isna_any s)) ;;;
  s' <- getitem df "CostPerMinute" ;;
  fs <- to_floats s' ;;
  py_assert (negb (existsb Float.isinf fs)).

(** The whole chain: the first key the scenario has decides. *)
Definition compare (c : case) (result : pyobj) : Py.result unit :=
  match expected_cols c with
  | Some cols => check_expected_cols result cols
  | None =>
  match expected c with
  | Some e => check_expected result e
  | None =>
  match expected_values c with
  | Some vals => check_expected_values result vals
  | None =>
  match expected_ids c with
  | Some ids => check_expected_ids result ids
  | None =>
  match expected_dict c with
  | Some items => check_expected_dict result items
  | None =>
  match expected_len c with
  | Some n => check_expected_len c result n
  | None =>
  match check_for_inf_or_nan c with
  | Some _ => check_inf_or_nan result
  | None => Ok tt
  end end end end end end end.

End Check.

(** ** The process: file system, standard streams, the student's code *)

Definition nl : string := String (ascii_of_nat 10) EmptyString.

Inductive stream : Type := Stdout | Stderr.

(** What [sys.stdout] is bound to: the terminal, or a [StringIO] and
    the text it has collected. *)
Inductive sink : Type :=
  | Terminal
  | StringIO (contents : list string).

(** Steps of the driver that the properties speak about. *)
Inductive event : Type :=
  | EvMakedirs (path : string)
  | EvLoad (path : string)
  | EvHeader (line : string)
  | EvConstruct
  | EvCall (name : string) (args : list arg)
  | EvReportLine (line : string)
  | EvAppend (path : string) (text : string).

Record World : Type := mkWorld {
  dirs : list string;
  files : list (string * string);
  sys_stdout : sink;
  term_out : list string;
  term_err : list string;
  events : list event
}.

(** A piece of student code that ran: what it wrote, and how it ended. *)
Record effect (A : Type) : Type := mkEffect {
  written : list (stream * string);
  outcome : result A
}.
Arguments mkEffect {A} written outcome.
Arguments written {A} e.
Arguments outcome {A} e.

(** An analyzer instance: [getattr(analyzer, name)] finds a method or
    nothing; a method takes its positional arguments. *)
Record Analyzer : Type := mkAnalyzer {
  getattr : string -> option (list arg -> effect pyobj)
}.

(** [student_module.VisitAnalyzer], called to get an instance. *)
Record AnalyzerClass : Type := mkClass {
  new : effect Analyzer
}.

(** The namespace of the executed module. *)
Record PyModule : Type := mkModule {
  VisitAnalyzer : option AnalyzerClass
}.

(** A stateful, fallible computation of the driver. *)
Definition io (A : Type) : Type := World -> World * result A.

Module IO.

Definition ret {A} (a : A) : io A := fun w => (w, Ok a).

Definition raise {A} (e : exn) : io A := fun w => (w, Raise e).

Definition bind {A B} (m : io A) (k : A -> io B) : io B :=
  fun w =>
    match m w with
    | (w', Ok a) => k a w'
    | (w', Raise e) => (w', Raise e)
    end.

Definition lift {A} (r : result A) : io A := fun w => (w, r).

Definition log (ev : event) : io unit :=
  fun w => (mkWorld (dirs w) (files w) (sys_stdout w) (term_out w) (term_err w)
                    (events w ++ [ev]), Ok tt).

Definition set_stdout (s : sink) (w : World) : World :=
  mkWorld (dirs w) (files w) s (term_out w) (term_err w) (events w).

(** [sys.stdout.write(text)] *)
Definition write_stdout (text : string) (w : World) : World :=
  match sys_stdout w with
  | Terminal =>
      mkWorld (dirs w) (files w) Terminal (term_out w ++ [text]) (term_err w) (events w)
  | StringIO buf =>
      mkWorld (dirs w) (files w) (StringIO (buf ++ [text])) (term_out w) (term_err w)
              (events w)
  end.

(** [sys.stderr.write(text)] *)
Definition write_stderr (text : string) (w : World) : World :=
  mkWorld (dirs w) (files w) (sys_stdout w) (term_out w) (term_err w ++ [text]) (events w).

Definition emit (w : World) (o : stream * string) : World :=
  match o with
  | (Stdout, text) => write_stdout text w
  | (Stderr, text) => write_stderr text w
  end.

(** Running a piece of student code: its writes reach whatever the
    streams are bound to at that moment. *)
Definition run {A} (e : effect A) : io A :=
  fun w => (fold_left emit (written e) w, outcome e).

(** [print(msg)] *)
Definition print (msg : string) : io unit :=
  fun w => (write_stdout (msg ++ nl) w, Ok tt).

End IO.

Notation "x <~ m ;; k" := (IO.bind m (fun x => k))
  (at level 61, m at next level, right associativity) : py_scope.
Notation "m ;;~ k" := (IO.bind m (fun _ => k))
  (at level 61, right associativity) : py_scope.

Module Os.

(** Membership of a path in a list of paths. *)
Definition mem (p : string) (l : list string) : bool :=
  existsb (String.eqb p) l.

Fixpoint lookup (p : string) (fs : list (string * string)) : option string :=
  match fs with
  | [] => None
  | (q, content) :: fs' => if String.eqb p q then Some content else lookup p fs'
  end.

Fixpoint update (p : string) (content : string) (fs : list (string * string))
  : list (string * string) :=
  match fs with
  | [] => [(p, content)]
  | (q, c) :: fs' =>
      if String.eqb p q then (q, content) :: fs' else (q, c) :: update p content fs'
  end.

Definition ends_with_slash (a : string) : bool :=
  match rev (list_ascii_of_string a) with
  | c :: _ => Ascii.eqb c "/"
  | [] => false
  end.

(** [os.path.join(a, b)] *)
Definition join (a b : string) : string :=
  match b with
  | String "/" _ => b
  | _ => if String.eqb a "" || ends_with_slash a then a ++ b else a ++ "/" ++ b
  end.

(** [os.makedirs(path, exist_ok=True)] *)
Definition makedirs (path : string) : io unit :=
  IO.log (EvMakedirs path) ;;~
  fun w =>
    if mem path (dirs w) then (w, Ok tt)
    else match lookup path (files w) with
         | Some _ =>
             (w, Raise (Exn FileExistsError
                          ("[Errno 17] File exists: '" ++ path ++ "'")))
         | None =>
             (mkWorld (dirs w ++ [path]) (files w) (sys_stdout w) (term_out w)
                      (term_err w) (events w), Ok tt)
         end.

(** [with open(path, "a", encoding="utf-8") as f: f.write(text)],
    for a file directly inside [dir] *)
Definition append_file (dir path : string) (text : string) : io unit :=
  fun w =>
    if negb (mem dir (dirs w)) then
      (w, Raise (Exn FileNotFoundError
                   ("[Errno 2] No such file or directory: '" ++ path ++ "'")))
    else if mem path (dirs w) then
      (w, Raise (Exn IsADirectoryError
                   ("[Errno 21] Is a directory: '" ++ path ++ "'")))
    else
      let old := match lookup path (files w) with Some c => c | None => "" end in
      (mkWorld (dirs w) (update path (old ++ text) (files w)) (sys_stdout w)
               (term_out w) (term_err w) (events w ++ [EvAppend path text]), Ok tt).

End Os.

(** ** The driver *)

(** [@contextlib.contextmanager def suppress_output():]
    [    with contextlib.redirect_stdout(StringIO()): yield]
    The binding of [sys.stdout] is saved, replaced by a fresh [StringIO]
    for the body, and put back when the body is left, by [return] or by
    an exception; the [StringIO] is dropped with what it collected. *)
Definition suppress_output {A} (body : io A) : io A :=
  fun w =>
    let old := sys_stdout w in
    let (w', r) := body (IO.set_stdout (StringIO []) w) in
    (IO.set_stdout old w', r).

(** [getattr(analyzer, case["func"])] *)
Definition py_getattr (analyzer : Analyzer) (name : string)
  : result (list arg -> effect pyobj) :=
  match getattr analyzer name with
  | Some m => Ok m
  | None =>
      Raise (Exn AttributeError
               ("'VisitAnalyzer' object has no attribute '" ++ name ++ "'"))
  end.

(** The positional arguments: the items of [case["input"]] when it is
    a tuple (it is unpacked), and [case["input"]] itself otherwise. *)
Definition call_args (c : case) : list arg :=
  match input c with
  | Tuple args => args
  | Single a => [a]
  end.

Definition invoke (method : list arg -> effect pyobj) (c : case) : io pyobj :=
  IO.log (EvCall (func c) (call_args c)) ;;~
  IO.run (method (call_args c)).

(** The body of the [try]. *)
Definition try_body (Analyzer : AnalyzerClass) (c : case) : io unit :=
  IO.log EvConstruct ;;~
  analyzer <~ IO.run (new Analyzer) ;;
  method <~ IO.lift (py_getattr analyzer (func c)) ;;
  result <~ suppress_output (invoke method c) ;;
  IO.lift (Check.compare c result).

Definition pass_msg (c : case) : string :=
  "✅ " ++ id c ++ ": " ++ desc c ++ " passed".

Definition fail_msg (c : case) (e : exn) : string :=
  "❌ " ++ id c ++ ": " ++ desc c ++ " failed | Reason: " ++ e_str e.

(** [try: ... msg = passed  except Exception as e: msg = failed]:
    an exception that is not an [Exception] is not caught. *)
Definition run_case (Analyzer : AnalyzerClass) (c : case) : io string :=
  fun w =>
    match try_body Analyzer c w with
    | (w', Ok _) => (w', Ok (pass_msg c))
    | (w', Raise e) =>
        if is_Exception (e_class e) then (w', Ok (fail_msg c e))
        else (w', Raise e)
    end.

(** [for section, case in test_cases: ... print(msg); report_lines.append(msg)] *)
Fixpoint run_cases (Analyzer : AnalyzerClass) (cases : list (section * case))
         (report_lines : list string) : io (list string) :=
  match cases with
  | [] => IO.ret report_lines
  | (_, c) :: cases' =>
      msg <~ run_case Analyzer c ;;
      IO.print msg ;;~
      IO.log (EvReportLine msg) ;;~
      run_cases Analyzer cases' (report_lines ++ [msg])
  end.

Section Driver.

(** Executing the source text of a module ([spec.loader.exec_module]). *)
Variable python : string -> effect PyModule.
(** Whether [spec_from_file_location] finds a loader for the path. *)
Variable has_loader : string -> bool.
(** [os.path.dirname(__file__)] *)
Variable here : string.
(** [datetime.datetime.now().strftime('%Y-%m-%d %H:%M:%S')] *)
Variable now : string.

Definition report_dir : string := Os.join (Os.join here "..") "student_workspace".
Definition report_path : string := Os.join report_dir "report.txt".

Definition read_source (path : string) : io string :=
  fun w =>
    if Os.mem path (dirs w) then
      (w, Raise (Exn IsADirectoryError ("[Errno 21] Is a directory: '" ++ path ++ "'")))
    else match Os.lookup path (files w) with
         | Some src => (w, Ok src)
         | None =>
             (w, Raise (Exn FileNotFoundError
                          ("[Errno 2] No such file or directory: '" ++ path ++ "'")))
         end.

(** Lines 19-22: the module is built from the path, executed, and its
    attribute [VisitAnalyzer] is read. *)
Definition load (solution_path : string) : io AnalyzerClass :=
  IO.log (EvLoad solution_path) ;;~
  (if has_loader solution_path then IO.ret tt
   else IO.raise (Exn AttributeError "'NoneType' object has no attribute 'loader'")) ;;~
  src <~ read_source solution_path ;;
  student_module <~ IO.run (python src) ;;
  match VisitAnalyzer student_module with
  | Some cls => IO.ret cls
  | None =>
      IO.raise (Exn AttributeError
                  "module 'student_module' has no attribute 'VisitAnalyzer'")
  end.

Definition header : string :=
  nl ++ "=== VisitAnalyzer Test Run at " ++ now ++ " ===".

Definition test_student_code (solution_path : string) : io unit :=
  Os.makedirs report_dir ;;~
  Analyzer <~ load solution_path ;;
  IO.log (EvHeader header) ;;~
  report_lines <~ run_cases Analyzer Registry.test_cases [header] ;;
  Os.append_file report_dir report_path (String.concat nl report_lines ++ nl).

End Driver.

(** ** Derived notions used by the statements *)

(** How the body of the [try] ends for a scenario: it does not depend
    on the state of the process. *)
Definition verdict (Analyzer : AnalyzerClass) (c : case) : result unit :=
  analyzer <- outcome (new Analyzer) ;;
  method <- py_getattr analyzer (func c) ;;
  result <- outcome (method (call_args c)) ;;
  Check.compare c result.

(** The line a scenario contributes when its exception, if any, is
    caught. *)
Definition report_line (Analyzer : AnalyzerClass) (c : case) : string :=
  match verdict Analyzer c with
  | Ok _ => pass_msg c
  | Raise e => fail_msg c e
  end.

(** The scenario's exception, if any, is one that [except Exception]
    catches. *)
Definition caught {A} (r : result A) : Prop :=
  match r with
  | Ok _ => True
  | Raise e => is_Exception (e_class e) = true
  end.


(** The texts of a list of writes that went to one stream. *)
Definition texts_to (s : stream) (l : list (stream * string)) : list string :=
  flat_map (fun o => match fst o, s with
                     | Stdout, Stdout | Stderr, Stderr => [snd o]
                     | _, _ => []
                     end) l.

(** The report lines among the steps of a run. *)
Definition report_lines_of (evs : list event) : list string :=
  flat_map (fun ev => match ev with EvReportLine l => [l] | _ => [] end) evs.

(** The steps that belong to scenarios or to the report. *)
Definition is_setup (ev : event) : bool :=
  match ev with
  | EvMakedirs _ | EvLoad _ => true
  | _ => false
  end.

(** The steps one scenario leaves in the log. *)
Definition case_events (Analyzer : AnalyzerClass) (c : case) : list event :=
  EvConstruct ::
  match outcome (new Analyzer) with
  | Ok analyzer =>
      match getattr analyzer (func c) with
      | Some _ => [EvCall (func c) (call_args c)]
      | None => []
      end
  | Raise _ => []
  end.

(** The steps the loop leaves in the log when no scenario aborts it. *)
Definition loop_events (Analyzer : AnalyzerClass) (cases : list (section * case))
  : list event :=
  flat_map (fun sc => case_events Analyzer (snd sc)
                      ++ [EvReportLine (report_line Analyzer (snd sc))]) cases.

Section LoadFailure.

Variable python : string -> effect PyModule.
Variable has_loader : string -> bool.

(** The ways loading the student's code fails: no loader for the path,
    no file at the path, an exception while the module executes, no
    attribute [VisitAnalyzer] in the executed module. *)
Inductive load_failure (path : string) (w : World) : Prop :=
  | NoLoader :
      has_loader path = false -> load_failure path w
  | NoSuchFile :
      Os.lookup path (files w) = None -> load_failure path w
  | RaisesOnExec (src : string) (e : exn) :
      Os.lookup path (files w) = Some src ->
      outcome (python src) = Raise e -> load_failure path w
  | NoClass (src : string) (m : PyModule) :
      Os.lookup path (files w) = Some src ->
      outcome (python src) = Ok m ->
      VisitAnalyzer m = None -> load_failure path w.

End LoadFailure.


(** ** Sample students and processes *)

Module Sample.

(** A method that prints a line and raises [ValueError("boom")]. *)
Definition failing_method : list arg -> effect pyobj :=
  fun _ => mkEffect [(Stdout, "debug")] (Raise (Exn ValueError "boom")).

(** A class all of whose methods are [failing_method]. *)
Definition failing : AnalyzerClass :=
  mkClass (mkEffect [] (Ok (mkAnalyzer (fun _ => Some failing_method)))).



(** A method that prints a line, writes a warning to [sys.stderr] and
    returns nothing. *)
Definition noisy_method : list arg -> effect pyobj :=
  fun _ => mkEffect [(Stdout, "debug"); (Stderr, "warning")] (Ok PNone).

(** A process with the solution file in place and nothing printed. *)
Definition w0 : World :=
  mkWorld [] [("solution.py", "class VisitAnalyzer: ...")] Terminal [] [] [].

(** An interpreter for which the solution defines [failing]. *)
Definition python_failing (src : string) : effect PyModule :=
  mkEffect [] (Ok (mkModule (Some failing))).

(** An interpreter for which the solution defines no [VisitAnalyzer]. *)
Definition python_no_class (src : string) : effect PyModule :=
  mkEffect [(Stdout, "loaded")] (Ok (mkModule None)).

Definition any_loader (path : string) : bool := true.

Definition here : string := "/grader/secret_tests".
Definition now : string := "2025-01-01 12:00:00".

End Sample.

(** ** Notions used to state what the comparisons decide *)

(** Which comparison the [if]/[elif] chain picks for a scenario. *)
Definition uses_expected_dict (c : case) (items : list (string * Q)) : Prop :=
  expected_cols c = None /\ expected c = None /\ expected_values c = None /\
  expected_ids c = None /\ expected_dict c = Some items.

Definition uses_expected_len (c : case) (n : nat) : Prop :=
  expected_cols c = None /\ expected c = None /\ expected_values c = None /\
  expected_ids c = None /\ expected_dict c = None /\ expected_len c = Some n.


Module Grouped.
Import Pandas.
#[local] Open Scope Q_scope.






(** [insert_at k v l]: [l] with [v] put in at position [k]. *)
Definition insert_at {A} (k : nat) (v : A) (l : list A) : list A :=
  firstn k l ++ v :: skipn k l.

(** Where a position goes when a column is put in at [k]. *)
Definition shift (k i : nat) : nat := if Nat.ltb i k then i else S i.

(** [more items df df']: [df'] is [df] with additional rows for
    departments that are not among the expected groups, or with
    additional columns (labelled otherwise than the two columns the
    check reads), put in anywhere. *)
Inductive more (items : list (string * Q)) : DataFrame -> DataFrame -> Prop :=
  | more_refl df : more items df df
  | more_row df df' above below r :
      columns df' = columns df ->
      rows df = above ++ below ->
      rows df' = above ++ r :: below ->
      (forall i dept avg,
          find_label "Department" (columns df) = Some i ->
          In (dept, avg) items ->
          Value.py_eq (cell i r) (VStr dept) = false) ->
      more items df df'
  | more_column df df' k label :
      (k <= List.length (columns df))%nat ->
      Value.py_eq label (VStr "Department") = false ->
      Value.py_eq label (VStr "Average Duration") = false ->
      columns df' = insert_at k label (columns df) ->
      Forall2 (fun r r' => (k <= List.length r)%nat /\ exists v, r' = insert_at k v r)
              (rows df) (rows df') ->
      more items df df'
  | more_trans df1 df2 df3 :
      more items df1 df2 -> more items df2 df3 -> more items df1 df3.

End Grouped.

Module Clean.




End Clean.

Module Equal.
Import Pandas.
#[local] Open Scope Q_scope.








End Equal.

Module Tables.
Import Pandas.
#[local] Open Scope Q_scope.

(** A result for TC5 with the given averages. *)
Definition averages (cardiology neurology : Q) : DataFrame :=
  DataFrame_of [[VStr "Cardiology"; VFloat (Fin cardiology)];
                [VStr "Neurology"; VFloat (Fin neurology)]]
               ["Department"; "Average Duration"].

(** The same with a row for another department and a column more. *)
Definition averages_more : DataFrame :=
  DataFrame_of [[VStr "Ortho"; VInt 2; VFloat (Fin 33.5)];
                [VStr "Cardiology"; VInt 2; VFloat (Fin 45.0)];
                [VStr "Neurology"; VInt 1; VFloat (Fin 30.0)]]
               ["Department"; "Visits"; "Average Duration"].

(** A result for TC1 with the expected columns in another order. *)
Definition reordered : DataFrame :=
  DataFrame_of [] ["Department"; "PatientID"; "Duration"; "Charges"].

(** A result for HTC1: the three complete visits. *)
Definition cleaned : DataFrame :=
  DataFrame_of [Registry.visit_f 103 "Ortho" (Fin 35.0) 1400.0;
                Registry.visit_f 102 "Neurology" (Fin 30.0) 1700.0;
                Registry.visit_f 105 "Ortho" (Fin 32.0) 1300.0]
               Registry.visit_columns.



End Tables.

(** ** The entry point and further notions *)

(** [if __name__ == "__main__":] the solution is looked for in the
    student's workspace, next to where the report goes. *)
Definition solution_file (here : string) : string :=
  Os.join (Os.join (Os.join here "..") "student_workspace") "solution.py".

Definition main (python : string -> effect PyModule) (has_loader : string -> bool)
           (here now : string) : io unit :=
  test_student_code python has_loader here now (solution_file here).

(** What the loop leaves on the console for one scenario: what the
    constructor printed, then the scenario's line. *)
Definition console_of (Analyzer : AnalyzerClass) (c : case) : list string :=
  texts_to Stdout (written (new Analyzer))
  ++ [(report_line Analyzer c ++ nl)%string].


(** Which comparison the [if]/[elif] chain picks for a scenario. *)
Definition uses_expected_values (c : case) (vals : list Q) : Prop :=
  expected_cols c = None /\ expected c = None /\ expected_values c = Some vals.

Definition uses_expected_ids (c : case) (ids : list Z) : Prop :=
  expected_cols c = None /\ expected c = None /\ expected_values c = None /\
  expected_ids c = Some ids.



Module MoreTables.
Import Pandas.
#[local] Open Scope Q_scope.

(** A result for TC4 that lists the frequent visitor twice, among
    other columns. *)
Definition visitors : DataFrame :=
  DataFrame_of [[VStr "Cardiology"; VInt 201]; [VStr "Cardiology"; VFloat (Fin 201.0)]]
               ["Department"; "PatientID"].



(** A table with the visit columns and no row. *)
Definition no_rows : DataFrame := DataFrame_of [] Registry.visit_columns.


End MoreTables.

Module MoreSample.

(** A class whose constructor prints a line and raises. *)
Definition broken_class : AnalyzerClass :=
  mkClass (mkEffect [(Stdout, "init")] (Raise (Exn ValueError "no data"))).



(** A process with nothing in its file system. *)
Definition w_fresh : World := mkWorld [] [] Terminal [] [] [].

End MoreSample.


(** ** Facts about the monads and the world *)

Ltac io_step :=
  cbv beta iota zeta;
  cbn [dirs files events sys_stdout term_out term_err fst snd].


Lemma bind_Ok_inv {A B} (m : result A) (k : A -> result B) (b : B) :
  bind m k = Ok b -> exists a, m = Ok a /\ k a = Ok b.
Proof. destruct m as [a|e]; simpl; intros H; [eauto | discriminate]. Qed.

Lemma py_assert_Ok (b : bool) : py_assert b = Ok tt <-> b = true.
Proof. destruct b; simpl; split; intros H; congruence. Qed.

Lemma py_assert_false (b : bool) :
  b = false -> py_assert b = Raise (Exn AssertionError "").
Proof. intros ->. reflexivity. Qed.



Module WorldFacts.

Lemma events_emit_all outs w : events (fold_left IO.emit outs w) = events w.
Proof.
  revert w. induction outs as [|[[] t] outs IH]; intros w; simpl; auto;
    rewrite IH; unfold IO.write_stdout, IO.write_stderr;
    destruct (sys_stdout w); reflexivity.
Qed.

Lemma dirs_emit_all outs w : dirs (fold_left IO.emit outs w) = dirs w.
Proof.
  revert w. induction outs as [|[[] t] outs IH]; intros w; simpl; auto;
    rewrite IH; unfold IO.write_stdout, IO.write_stderr;
    destruct (sys_stdout w); reflexivity.
Qed.

Lemma files_emit_all outs w : files (fold_left IO.emit outs w) = files w.
Proof.
  revert w. induction outs as [|[[] t] outs IH]; intros w; simpl; auto;
    rewrite IH; unfold IO.write_stdout, IO.write_stderr;
    destruct (sys_stdout w); reflexivity.
Qed.

Lemma term_err_emit_all outs w :
  term_err (fold_left IO.emit outs w) = (term_err w ++ texts_to Stderr outs)%list.
Proof.
  revert w. induction outs as [|[[] t] outs IH]; intros w; simpl.
  - now rewrite app_nil_r.
  - rewrite IH. unfold IO.write_stdout. destruct (sys_stdout w); reflexivity.
  - rewrite IH. simpl. now rewrite <- app_assoc.
Qed.

(** While [sys.stdout] is a [StringIO], nothing reaches the terminal's
    standard output. *)
Lemma term_out_emit_all_buffered outs w buf :
  sys_stdout w = StringIO buf ->
  term_out (fold_left IO.emit outs w) = term_out w /\
  exists buf', sys_stdout (fold_left IO.emit outs w) = StringIO buf'.
Proof.
  revert w buf. induction outs as [|[[] t] outs IH]; intros w buf Hw; simpl.
  - eauto.
  - unfold IO.write_stdout. rewrite Hw.
    destruct (IH (mkWorld (dirs w) (files w) (StringIO (buf ++ [t])) (term_out w)
                          (term_err w) (events w)) (buf ++ [t]) eq_refl) as [H1 H2].
    auto.
  - destruct (IH (IO.write_stderr t w) buf Hw) as [H1 H2]. auto.
Qed.

Lemma term_out_emit_all_terminal outs w :
  sys_stdout w = Terminal ->
  term_out (fold_left IO.emit outs w) = (term_out w ++ texts_to Stdout outs)%list /\
  sys_stdout (fold_left IO.emit outs w) = Terminal.
Proof.
  revert w. induction outs as [|[[] t] outs IH]; intros w Hw; simpl.
  - now rewrite app_nil_r.
  - unfold IO.write_stdout. rewrite Hw.
    destruct (IH (mkWorld (dirs w) (files w) Terminal (term_out w ++ [t])
                          (term_err w) (events w)) eq_refl) as [H1 H2].
    rewrite H1, H2. simpl. now rewrite <- app_assoc.
  - destruct (IH (IO.write_stderr t w) Hw) as [H1 H2]. auto.
Qed.

End WorldFacts.

(** ** The invocation under [suppress_output] *)

Lemma suppress_invoke_spec (method : list arg -> effect pyobj) (c : case) (w : World) :
  let w' := fst (suppress_output (invoke method c) w) in
  snd (suppress_output (invoke method c) w) = outcome (method (call_args c)) /\
  sys_stdout w' = sys_stdout w /\
  term_out w' = term_out w /\
  term_err w' = term_err w ++ texts_to Stderr (written (method (call_args c))) /\
  dirs w' = dirs w /\
  files w' = files w /\
  events w' = events w ++ [EvCall (func c) (call_args c)].
Proof.
  unfold suppress_output, invoke, IO.bind, IO.log, IO.run, IO.set_stdout. simpl.
  set (w1 := mkWorld _ _ (StringIO []) _ _ _).
  destruct (WorldFacts.term_out_emit_all_buffered
              (written (method (call_args c))) w1 [] eq_refl) as [Hout _].
  repeat split.
  - exact Hout.
  - now rewrite WorldFacts.term_err_emit_all.
  - now rewrite WorldFacts.dirs_emit_all.
  - now rewrite WorldFacts.files_emit_all.
  - now rewrite WorldFacts.events_emit_all.
Qed.

(** The body of the [try]: its result is the scenario's verdict, and it
    leaves the file system alone. *)
Lemma try_body_spec (Analyzer : AnalyzerClass) (c : case) (w w' : World) (r : result unit) :
  try_body Analyzer c w = (w', r) ->
  r = verdict Analyzer c /\
  dirs w' = dirs w /\
  files w' = files w /\
  events w' = events w ++ case_events Analyzer c /\
  (sys_stdout w = Terminal -> sys_stdout w' = Terminal).
Proof.
  unfold try_body, verdict, case_events, IO.bind, IO.log, IO.run, IO.lift.
  set (w1 := mkWorld (dirs w) (files w) (sys_stdout w) (term_out w) (term_err w)
                     (events w ++ [EvConstruct])).
  set (w2 := fold_left IO.emit (written (new Analyzer)) w1).
  assert (E2 : events w2 = events w ++ [EvConstruct])
    by (unfold w2; now rewrite WorldFacts.events_emit_all).
  assert (D2 : dirs w2 = dirs w)
    by (unfold w2; now rewrite WorldFacts.dirs_emit_all).
  assert (F2 : files w2 = files w)
    by (unfold w2; now rewrite WorldFacts.files_emit_all).
  assert (T2 : sys_stdout w = Terminal -> sys_stdout w2 = Terminal).
  { intros Hw. apply (WorldFacts.term_out_emit_all_terminal _ w1 Hw). }
  clearbody w2. clear w1.
  destruct (outcome (new Analyzer)) as [analyzer|e]; cbn [bind].
  2:{ intros [= <- <-]. rewrite E2. auto. }
  unfold py_getattr.
  destruct (getattr analyzer (func c)) as [method|]; cbn [bind].
  2:{ intros [= <- <-]. rewrite E2. auto. }
  pose proof (suppress_invoke_spec method c w2) as S. cbn zeta in S.
  destruct (suppress_output (invoke method c) w2) as [w3 r3]. cbn [fst snd] in S.
  destruct S as (-> & S1 & _ & _ & S4 & S5 & S6).
  destruct (outcome (method (call_args c))) as [res|e]; cbn [bind];
    intros [= <- <-]; rewrite S4, S5, S6, E2, D2, F2, <- app_assoc;
    repeat split; auto; intros Hw; rewrite S1; auto.
Qed.


(** ** The loop over the scenarios *)

Lemma run_case_spec (Analyzer : AnalyzerClass) (c : case) (w w' : World) (r : result string) :
  run_case Analyzer c w = (w', r) ->
  (r = Ok (report_line Analyzer c) /\ caught (verdict Analyzer c) \/
   exists e, r = Raise e /\ verdict Analyzer c = Raise e /\
             is_Exception (e_class e) = false) /\
  dirs w' = dirs w /\
  files w' = files w /\
  events w' = events w ++ case_events Analyzer c /\
  (sys_stdout w = Terminal -> sys_stdout w' = Terminal).
Proof.
  unfold run_case, report_line.
  destruct (try_body Analyzer c w) as [w1 r1] eqn:E.
  apply try_body_spec in E. destruct E as (-> & E).
  destruct (verdict Analyzer c) as [[]|e] eqn:V.
  - intros [= <- <-]. split; [left; simpl; auto | exact E].
  - destruct (is_Exception (e_class e)) eqn:X; intros [= <- <-];
      (split; [| exact E]).
    + left. simpl. auto.
    + right. exists e. auto.
Qed.

Lemma print_spec (msg : string) (w : World) :
  let w' := fst (IO.print msg w) in
  snd (IO.print msg w) = Ok tt /\
  dirs w' = dirs w /\ files w' = files w /\ events w' = events w /\
  (sys_stdout w = Terminal ->
   sys_stdout w' = Terminal /\ term_out w' = term_out w ++ [(msg ++ nl)%string]).
Proof.
  unfold IO.print, IO.write_stdout. simpl.
  destruct (sys_stdout w) eqn:E; simpl; repeat split; auto; discriminate.
Qed.

(** When the loop ends normally, the lines it added are those of the
    scenarios, one each, in the order of the list. *)
Lemma run_cases_Ok_inv (Analyzer : AnalyzerClass) (cases : list (section * case)) :
  forall (lines : list string) (w w' : World) (out : list string),
    run_cases Analyzer cases lines w = (w', Ok out) ->
    out = lines ++ map (report_line Analyzer) (map snd cases).
Proof.
  induction cases as [|[s c] cases IH]; intros lines w w' out; simpl.
  - unfold IO.ret. intros [= _ <-]. now rewrite app_nil_r.
  - unfold IO.bind at 1.
    destruct (run_case Analyzer c w) as [w1 r1] eqn:E1.
    apply run_case_spec in E1. destruct E1 as ([[-> _]|(e & -> & _)] & _).
    2:{ discriminate. }
    unfold IO.bind at 1. unfold IO.print at 1.
    unfold IO.bind at 1. unfold IO.log at 1.
    intros H. apply IH in H. rewrite H, <- app_assoc. reflexivity.
Qed.

(** When every scenario's exception is caught, the loop runs through
    the whole list. *)
Lemma run_cases_caught (Analyzer : AnalyzerClass) (cases : list (section * case)) :
  (forall s c, In (s, c) cases -> caught (verdict Analyzer c)) ->
  forall (lines : list string) (w : World),
  exists w',
    run_cases Analyzer cases lines w
      = (w', Ok (lines ++ map (report_line Analyzer) (map snd cases))) /\
    dirs w' = dirs w /\
    files w' = files w /\
    events w' = events w ++ loop_events Analyzer cases /\
    (sys_stdout w = Terminal -> sys_stdout w' = Terminal).
Proof.
  induction cases as [|[s c] cases IH]; intros Hc lines w; simpl.
  - exists w. unfold IO.ret. rewrite !app_nil_r. auto.
  - unfold IO.bind at 1.
    destruct (run_case Analyzer c w) as [w1 r1] eqn:E1.
    apply run_case_spec in E1.
    destruct E1 as ([[-> _]|(e & _ & V & X)] & D1 & F1 & Ev1 & T1).
    2:{ specialize (Hc s c (or_introl eq_refl)). rewrite V in Hc. simpl in Hc.
        congruence. }
    unfold IO.bind at 1.
    pose proof (print_spec (report_line Analyzer c) w1) as P. cbn zeta in P.
    destruct (IO.print (report_line Analyzer c) w1) as [w2 r2].
    cbn [fst snd] in P. destruct P as (-> & D2 & F2 & Ev2 & T2).
    unfold IO.bind at 1. unfold IO.log at 1.
    set (w3 := mkWorld _ _ _ _ _ _).
    destruct (IH (fun s' c' H => Hc s' c' (or_intror H))
                 (lines ++ [report_line Analyzer c]) w3)
      as (w' & R & D & F & Ev & T).
    exists w'. rewrite R, D, F, Ev. unfold w3. cbn [dirs files events sys_stdout].
    rewrite D2, F2, Ev2, D1, F1, Ev1, <- !app_assoc. simpl.
    repeat split; auto.
    intros Hw. apply T. unfold w3. simpl. apply T2. auto.
Qed.


(** ** Setting up the run: the report directory and the student's module *)

Lemma makedirs_spec (path : string) (w w' : World) (r : result unit) :
  Os.makedirs path w = (w', r) ->
  files w' = files w /\
  events w' = events w ++ [EvMakedirs path] /\
  sys_stdout w' = sys_stdout w /\
  term_out w' = term_out w /\
  (r = Ok tt -> Os.mem path (dirs w') = true) /\
  (Os.mem path (dirs w) = true -> r = Ok tt /\ dirs w' = dirs w).
Proof.
  unfold Os.makedirs, IO.bind, IO.log. cbn [dirs files].
  destruct (Os.mem path (dirs w)) eqn:M.
  - intros [= <- <-]. simpl. auto 10.
  - destruct (Os.lookup path (files w)); intros [= <- <-]; simpl;
      repeat split; auto; try discriminate.
    intros _. unfold Os.mem. rewrite existsb_app. simpl.
    rewrite String.eqb_refl. now rewrite orb_true_r.
Qed.

Section Setup.

Variable python : string -> effect PyModule.
Variable has_loader : string -> bool.
Variables here now : string.

Lemma load_spec (path : string) (w w' : World) (r : result AnalyzerClass) :
  load python has_loader path w = (w', r) ->
  dirs w' = dirs w /\
  files w' = files w /\
  events w' = events w ++ [EvLoad path] /\
  (load_failure python has_loader path w -> exists e, r = Raise e).
Proof.
  unfold load, IO.bind, IO.log, IO.ret, IO.raise, IO.run, read_source.
  destruct (has_loader path) eqn:L; io_step.
  2:{ intros [= <- <-]. simpl. eauto 10. }
  destruct (Os.mem path (dirs w)); io_step.
  { intros [= <- <-]. simpl. eauto 10. }
  destruct (Os.lookup path (files w)) as [src|] eqn:S; io_step.
  2:{ intros [= <- <-]. simpl. eauto 10. }
  destruct (outcome (python src)) as [m|e] eqn:O; io_step.
  2:{ intros [= <- <-].
      rewrite WorldFacts.dirs_emit_all, WorldFacts.files_emit_all,
        WorldFacts.events_emit_all. simpl. eauto 10. }
  destruct (VisitAnalyzer m) as [cls|] eqn:V; intros [= <- <-];
    rewrite WorldFacts.dirs_emit_all, WorldFacts.files_emit_all,
      WorldFacts.events_emit_all; simpl; repeat split; auto.
  - intros [H|H|src' e H1 H2|src' m' H1 H2 H3]; try congruence.
  - eauto.
Qed.

End Setup.

(** ** The claims about the run as a whole *)

Section Run.

Variable python : string -> effect PyModule.
Variable has_loader : string -> bool.
Variables here now : string.

Lemma load_failure_files (path : string) (w w1 : World) :
  files w1 = files w ->
  load_failure python has_loader path w ->
  load_failure python has_loader path w1.
Proof.
  intros F [H|H|src e H1 H2|src m H1 H2 H3].
  - now apply NoLoader.
  - apply NoSuchFile. now rewrite F.
  - eapply RaisesOnExec; eauto. now rewrite F.
  - eapply NoClass; eauto. now rewrite F.
Qed.

(** C3.  When loading the student's code fails (no file at the path, an
    exception while the module executes, no class [VisitAnalyzer]), the
    run ends with that exception; the only steps taken are creating the
    report directory and the attempt to load: no analyzer is
    constructed, no method is called, no report line is made or
    printed, and no file is written. *)
Theorem C3_load_failure_aborts (path : string) (w : World)
  (H : load_failure python has_loader path w) :
  exists w' e,
    test_student_code python has_loader here now path w = (w', Raise e) /\
    files w' = files w /\
    exists evs, events w' = events w ++ evs /\ forallb is_setup evs = true.
Proof.
  unfold test_student_code, IO.bind.
  destruct (Os.makedirs (report_dir here) w) as [w1 r1] eqn:M.
  apply makedirs_spec in M. destruct M as (F1 & E1 & _).
  destruct r1 as [[]|e1].
  2:{ exists w1, e1. repeat split; auto. exists [EvMakedirs (report_dir here)]. auto. }
  destruct (load python has_loader path w1) as [w2 r2] eqn:L.
  apply load_spec in L. destruct L as (_ & F2 & E2 & Hfail).
  destruct (Hfail (load_failure_files path w w1 F1 H)) as [e ->].
  exists w2, e. repeat split; [congruence|].
  exists [EvMakedirs (report_dir here); EvLoad path].
  rewrite E2, E1, <- app_assoc. auto.
Qed.

(** C9.  In a run whose load fails, the report directory was created
    before the load was attempted, so it exists afterwards, and the
    report file is as it was; creating the directory leaves an existing
    directory alone. *)
Theorem C9_report_dir_exists_after_load_failure
  (path : string) (w w1 w' : World) (e : exn)
  (Hmk : Os.makedirs (report_dir here) w = (w1, Ok tt))
  (Hload : load python has_loader path w1 = (w', Raise e)) :
  test_student_code python has_loader here now path w = (w', Raise e) /\
  Os.mem (report_dir here) (dirs w') = true /\
  files w' = files w /\
  events w' = events w ++ [EvMakedirs (report_dir here); EvLoad path] /\
  (Os.mem (report_dir here) (dirs w) = true -> dirs w' = dirs w).
Proof.
  unfold test_student_code, IO.bind. rewrite Hmk, Hload.
  apply makedirs_spec in Hmk. destruct Hmk as (F1 & E1 & _ & _ & M1 & I1).
  apply load_spec in Hload. destruct Hload as (D2 & F2 & E2 & _).
  repeat split.
  - rewrite D2. auto.
  - congruence.
  - rewrite E2, E1, <- app_assoc. reflexivity.
  - intros Hin. rewrite D2. apply I1. exact Hin.
Qed.

End Run.

(** The solution file defines no [VisitAnalyzer]: the run stops at the
    load. *)
Lemma C3_witness :
  exists w' e,
    test_student_code Sample.python_no_class Sample.any_loader Sample.here
                      Sample.now "solution.py" Sample.w0 = (w', Raise e) /\
    files w' = files Sample.w0 /\
    exists evs, events w' = events Sample.w0 ++ evs /\ forallb is_setup evs = true.
Proof.
  apply (C3_load_failure_aborts Sample.python_no_class Sample.any_loader
           Sample.here Sample.now "solution.py" Sample.w0).
  eapply NoClass; reflexivity.
Defined.

Lemma C9_witness :
  let d := report_dir Sample.here in
  let w1 := fst (Os.makedirs d Sample.w0) in
  let w' := fst (load Sample.python_no_class Sample.any_loader "solution.py" w1) in
  Os.mem d (dirs w') = true /\ files w' = files Sample.w0.
Proof.
  intros d w1 w'.
  destruct (C9_report_dir_exists_after_load_failure
              Sample.python_no_class Sample.any_loader Sample.here Sample.now
              "solution.py" Sample.w0 w1 w'
              (Exn AttributeError "module 'student_module' has no attribute 'VisitAnalyzer'")
              eq_refl eq_refl) as (_ & Hd & Hf & _).
  split; [exact Hd | exact Hf].
Defined.

(** ** The claims about the loop and the invocation *)

(** C8 (as amended).  Whatever the method writes to [sys.stdout] during
    the invocation is collected by a [StringIO] that is dropped: after
    the invocation, whether the method returned or raised, [sys.stdout]
    is bound to what it was bound to before, the terminal's standard
    output and the files are as they were, and only the method's outcome
    is passed on.  What the method writes to [sys.stderr] still reaches
    the terminal. *)
Theorem C8_stdout_swallowed_and_restored
  (method : list arg -> effect pyobj) (c : case) (w : World) :
  suppress_output (invoke method c) w =
  ({| dirs := dirs w;
      files := files w;
      sys_stdout := sys_stdout w;
      term_out := term_out w;
      term_err := term_err w ++ texts_to Stderr (written (method (call_args c)));
      events := events w ++ [EvCall (func c) (call_args c)] |},
   outcome (method (call_args c))).
Proof.
  pose proof (suppress_invoke_spec method c w) as S. cbn zeta in S.
  destruct (suppress_output (invoke method c) w) as [[d f s o e ev] r].
  cbn [fst snd dirs files sys_stdout term_out term_err events] in S.
  destruct S as (-> & -> & -> & -> & -> & -> & ->). reflexivity.
Qed.

(** C8 as stated fails: a method that writes a warning to [sys.stderr]
    during the invocation leaves it on the console. *)
Lemma C8_counterexample :
  let w' := fst (suppress_output (invoke Sample.noisy_method Registry.TC1) Sample.w0) in
  term_out w' = term_out Sample.w0 /\
  term_err w' = term_err Sample.w0 ++ ["warning"] /\
  term_err w' <> term_err Sample.w0.
Proof. cbv zeta. repeat split. discriminate. Qed.

Lemma report_lines_of_app (l1 l2 : list event) :
  report_lines_of (l1 ++ l2) = report_lines_of l1 ++ report_lines_of l2.
Proof. unfold report_lines_of. apply flat_map_app. Qed.

Lemma report_lines_of_case_events (Analyzer : AnalyzerClass) (c : case) :
  report_lines_of (case_events Analyzer c) = [].
Proof.
  unfold case_events.
  destruct (outcome (new Analyzer)) as [a|]; simpl; auto.
  destruct (getattr a (func c)); reflexivity.
Qed.

Lemma report_lines_of_loop_events (Analyzer : AnalyzerClass) (cases : list (section * case)) :
  report_lines_of (loop_events Analyzer cases)
  = map (report_line Analyzer) (map snd cases).
Proof.
  induction cases as [|[s c] cases IH]; [reflexivity|].
  change (loop_events Analyzer ((s, c) :: cases))
    with ((case_events Analyzer c ++ [EvReportLine (report_line Analyzer c)])
          ++ loop_events Analyzer cases).
  rewrite !report_lines_of_app, report_lines_of_case_events, IH. reflexivity.
Qed.

Lemma run_cases_Ok_caught (Analyzer : AnalyzerClass) (cases : list (section * case)) :
  forall (lines : list string) (w w' : World) (out : list string),
    run_cases Analyzer cases lines w = (w', Ok out) ->
    forall s c, In (s, c) cases -> caught (verdict Analyzer c).
Proof.
  induction cases as [|[s0 c0] cases IH]; intros lines w w' out; simpl.
  - intros _ s c [].
  - unfold IO.bind at 1.
    destruct (run_case Analyzer c0 w) as [w1 r1] eqn:E1.
    apply run_case_spec in E1. destruct E1 as ([[-> C]|(e & -> & _)] & _).
    2:{ discriminate. }
    unfold IO.bind at 1. unfold IO.print at 1.
    unfold IO.bind at 1. unfold IO.log at 1.
    intros H s c [[= <- <-]|Hin]; [exact C|].
    eapply IH; eauto.
Qed.





(** ** The registry and the order of the report *)

Lemma lookup_update (p content : string) (fs : list (string * string)) :
  Os.lookup p (Os.update p content fs) = Some content.
Proof.
  induction fs as [|[q c] fs IH]; simpl.
  - now rewrite String.eqb_refl.
  - destruct (String.eqb p q) eqn:E; simpl; rewrite E; auto.
Qed.

Lemma append_file_spec (dir path text : string) (w w' : World) :
  Os.append_file dir path text w = (w', Ok tt) ->
  events w' = events w ++ [EvAppend path text] /\
  Os.lookup path (files w')
  = Some ((match Os.lookup path (files w) with Some c => c | None => "" end)
          ++ text)%string.
Proof.
  unfold Os.append_file.
  destruct (negb (Os.mem dir (dirs w))); [discriminate|].
  destruct (Os.mem path (dirs w)); [discriminate|].
  intros [= <-]. simpl. split; auto. apply lookup_update.
Qed.

Section Report.

Variable python : string -> effect PyModule.
Variable has_loader : string -> bool.
Variables here now : string.

(** A run that ends normally loaded a class, went through the whole
    registry and appended one block to the report file. *)
Lemma test_student_code_Ok_inv (path : string) (w w' : World) :
  test_student_code python has_loader here now path w = (w', Ok tt) ->
  exists (Analyzer : AnalyzerClass) (text : string),
    text = (String.concat nl
              (header now :: map (report_line Analyzer) (map snd Registry.test_cases))
            ++ nl)%string /\
    events w'
    = events w ++ [EvMakedirs (report_dir here); EvLoad path; EvHeader (header now)]
      ++ loop_events Analyzer Registry.test_cases
      ++ [EvAppend (report_path here) text] /\
    Os.lookup (report_path here) (files w')
    = Some ((match Os.lookup (report_path here) (files w) with
             | Some c => c
             | None => ""
             end) ++ text)%string.
Proof.
  unfold test_student_code, IO.bind at 1.
  destruct (Os.makedirs (report_dir here) w) as [w1 r1] eqn:M.
  apply makedirs_spec in M. destruct M as (F1 & E1 & _).
  destruct r1 as [[]|e1]; [|discriminate].
  unfold IO.bind at 1.
  destruct (load python has_loader path w1) as [w2 r2] eqn:L.
  apply load_spec in L. destruct L as (_ & F2 & E2 & _).
  destruct r2 as [Analyzer|e2]; [|discriminate].
  unfold IO.bind at 1. unfold IO.log at 1.
  set (w3 := mkWorld _ _ _ _ _ _).
  unfold IO.bind at 1.
  destruct (run_cases Analyzer Registry.test_cases [header now] w3) as [w4 r4] eqn:R.
  destruct r4 as [out|e4]; [|discriminate].
  pose proof (run_cases_Ok_caught _ _ _ _ _ _ R) as C.
  destruct (run_cases_caught Analyzer Registry.test_cases C [header now] w3)
    as (w4' & R' & _ & F4 & E4 & _).
  rewrite R in R'. injection R' as <- ->.
  intros A. apply append_file_spec in A. destruct A as (E5 & F5).
  exists Analyzer, (String.concat nl
              (header now :: map (report_line Analyzer) (map snd Registry.test_cases))
            ++ nl)%string.
  split; [reflexivity|]. split.
  - rewrite E5, E4. unfold w3. cbn [events]. rewrite E2, E1.
    rewrite <- !app_assoc. reflexivity.
  - rewrite F5, F4. unfold w3. cbn [files]. rewrite F2, F1. reflexivity.
Qed.

(** C1 (as amended).  The registry is a fixed list of exactly eight
    scenarios: the five visible ones TC1 to TC5 followed by the three
    hidden ones HTC1 to HTC3.  In a run that ends normally the report
    lines come in this order: the block appended to the report file is
    the header followed by the line of TC1, of TC2, ... and of HTC3. *)
Theorem C1_registry_of_eight_in_report_order (path : string) (w w' : World)
  (H : test_student_code python has_loader here now path w = (w', Ok tt)) :
  List.length Registry.test_cases = 8%nat /\
  map (fun sc => (fst sc, id (snd sc))) Registry.test_cases
  = [ (Visible, "TC1"); (Visible, "TC2"); (Visible, "TC3"); (Visible, "TC4");
      (Visible, "TC5"); (Hidden, "HTC1"); (Hidden, "HTC2"); (Hidden, "HTC3") ] /\
  exists Analyzer : AnalyzerClass,
    let lines :=
      map (report_line Analyzer)
          [ Registry.TC1; Registry.TC2; Registry.TC3; Registry.TC4; Registry.TC5;
            Registry.HTC1; Registry.HTC2; Registry.HTC3 ] in
    report_lines_of (events w') = report_lines_of (events w) ++ lines /\
    Os.lookup (report_path here) (files w')
    = Some ((match Os.lookup (report_path here) (files w) with
             | Some c => c
             | None => ""
             end) ++ String.concat nl (header now :: lines) ++ nl)%string.
Proof.
  split; [reflexivity|]. split; [reflexivity|].
  apply test_student_code_Ok_inv in H.
  destruct H as (Analyzer & text & -> & E & F).
  exists Analyzer. cbv zeta. split.
  - rewrite E, !report_lines_of_app, report_lines_of_loop_events.
    cbn [report_lines_of flat_map app]. rewrite ?app_nil_r. reflexivity.
  - exact F.
Qed.

End Report.

(** C1 as stated fails: the registry does not have nine scenarios. *)
Lemma C1_counterexample : List.length Registry.test_cases <> 9%nat.
Proof. discriminate. Qed.

Lemma C1_witness :
  let w' := fst (test_student_code Sample.python_failing Sample.any_loader
                   Sample.here Sample.now "solution.py" Sample.w0) in
  List.length Registry.test_cases = 8%nat /\
  map (fun sc => (fst sc, id (snd sc))) Registry.test_cases
  = [ (Visible, "TC1"); (Visible, "TC2"); (Visible, "TC3"); (Visible, "TC4");
      (Visible, "TC5"); (Hidden, "HTC1"); (Hidden, "HTC2"); (Hidden, "HTC3") ] /\
  exists Analyzer : AnalyzerClass,
    let lines :=
      map (report_line Analyzer)
          [ Registry.TC1; Registry.TC2; Registry.TC3; Registry.TC4; Registry.TC5;
            Registry.HTC1; Registry.HTC2; Registry.HTC3 ] in
    report_lines_of (events w') = report_lines_of (events Sample.w0) ++ lines /\
    Os.lookup (report_path Sample.here) (files w')
    = Some ((match Os.lookup (report_path Sample.here) (files Sample.w0) with
             | Some c => c
             | None => ""
             end) ++ String.concat nl (header Sample.now :: lines) ++ nl)%string.
Proof.
  intros w'.
  apply (C1_registry_of_eight_in_report_order
           Sample.python_failing Sample.any_loader Sample.here Sample.now
           "solution.py" Sample.w0 w').
  vm_compute. reflexivity.
Defined.

(** ** The column-set check *)

Lemma py_eq_VStr (v : value) (s : string) :
  Value.py_eq v (VStr s) = true <-> v = VStr s.
Proof.
  destruct v as [z|[q| | |]|t|]; simpl; try (split; intros; discriminate).
  rewrite String.eqb_eq. split; congruence.
Qed.

Lemma list_eqb_labels (cols : list value) (names : list string) :
  list_eqb Value.py_eq cols (map VStr names) = true <-> cols = map VStr names.
Proof.
  revert names. induction cols as [|c cols IH]; intros [|n names]; simpl;
    try (split; intros; (reflexivity || discriminate)).
  rewrite andb_true_iff, py_eq_VStr, IH. split.
  - intros [-> ->]. reflexivity.
  - intros [= -> ->]. auto.
Qed.

(** C5.  For a scenario with the key [expected_cols], the comparison
    passes exactly when the result is a table whose column labels, in
    order, are the expected names; a table whose columns are a
    reordering of the expected names other than the expected order
    fails the assertion. *)
Theorem C5_column_check_is_order_sensitive
  (c : case) (cols : list string) (result : pyobj)
  (H : expected_cols c = Some cols) :
  (Check.compare c result = Ok tt <->
   exists df, result = PFrame df /\ columns df = map VStr cols) /\
  (forall df,
      result = PFrame df ->
      Permutation (columns df) (map VStr cols) ->
      columns df <> map VStr cols ->
      Check.compare c result = Raise (Exn AssertionError "")).
Proof.
  unfold Check.compare. rewrite H. unfold Check.check_expected_cols, Check.frame_attr.
  split.
  - destruct result as [df|]; simpl.
    + rewrite py_assert_Ok, list_eqb_labels. split.
      * intros E. exists df. auto.
      * intros (df' & [= <-] & E). exact E.
    + split; [discriminate|]. intros (df' & [=] & _).
  - intros df -> _ Hne. simpl. apply py_assert_false.
    destruct (list_eqb Value.py_eq (columns df) (map VStr cols)) eqn:E; auto.
    apply list_eqb_labels in E. contradiction.
Qed.

Lemma C5_witness :
  Check.compare Registry.TC1 (PFrame Tables.reordered)
  = Raise (Exn AssertionError "").
Proof.
  apply (proj2 (C5_column_check_is_order_sensitive
                  Registry.TC1 ["PatientID"; "Department"; "Duration"; "Charges"]
                  (PFrame Tables.reordered) eq_refl)
           Tables.reordered eq_refl).
  - apply perm_swap.
  - discriminate.
Defined.

(** ** The grouped-average check *)

Module GroupedFacts.
Import Pandas Grouped.
#[local] Open Scope Q_scope.

Lemma select_map {A} (f : A -> bool) (l : list A) :
  select (map f l) l = filter f l.
Proof. induction l as [|x l IH]; simpl; auto. destruct (f x); now rewrite IH. Qed.

Lemma values0_map_filter {A} (g : A -> value) (f : A -> bool) (l : list A) :
  values0 (map g (filter f l)) =
  match find f l with
  | Some x => Ok (g x)
  | None => Raise (Exn IndexError "index 0 is out of bounds for axis 0 with size 0")
  end.
Proof. induction l as [|x l IH]; simpl; auto. destruct (f x); simpl; auto. Qed.

(** The value the check reads for a group: the "Average Duration" of
    the first row whose "Department" equals the group. *)
Lemma actual_average_unfold (df : DataFrame) (dept : string) :
  Check.actual_average (PFrame df) dept =
  match find_label "Department" (columns df) with
  | None => Raise (Exn KeyError "'Department'")
  | Some i =>
      match find_label "Average Duration" (columns df) with
      | None => Raise (Exn KeyError "'Average Duration'")
      | Some j =>
          match find (fun r => Value.py_eq (cell i r) (VStr dept)) (rows df) with
          | Some r => Ok (cell j r)
          | None =>
              Raise (Exn IndexError "index 0 is out of bounds for axis 0 with size 0")
          end
      end
  end.
Proof.
  unfold Check.actual_average, Check.subscript, getitem, filter_rows, eq_scalar.
  cbn [bind columns rows].
  destruct (find_label "Department" (columns df)) as [i|]; cbn [bind]; auto.
  destruct (find_label "Average Duration" (columns df)) as [j|]; cbn [bind]; auto.
  rewrite map_map, select_map. apply values0_map_filter.
Qed.







End GroupedFacts.




(** ** Rows and columns the grouped-average check does not read *)

Module MoreFacts.
Import Pandas Grouped.

Lemma insert_at_0 {A} (v : A) (l : list A) : insert_at 0 v l = v :: l.
Proof. reflexivity. Qed.

Lemma insert_at_S {A} (k : nat) (v x : A) (l : list A) :
  insert_at (S k) v (x :: l) = x :: insert_at k v l.
Proof. reflexivity. Qed.

Lemma shift_S (k i : nat) : shift (S k) (S i) = S (shift k i).
Proof.
  unfold shift. change (Nat.ltb (S i) (S k)) with (Nat.ltb i k).
  now destruct (Nat.ltb i k).
Qed.

Lemma find_label_insert_at (name : string) (label : value) (cols : list value) :
  Value.py_eq label (VStr name) = false ->
  forall k, (k <= List.length cols)%nat ->
  find_label name (insert_at k label cols)
  = option_map (shift k) (find_label name cols).
Proof.
  intros Hl. induction cols as [|c cols IH]; intros k Hk.
  - assert (k = 0%nat) by (simpl in Hk; lia). subst k.
    rewrite insert_at_0. simpl. now rewrite Hl.
  - destruct k as [|k].
    + rewrite insert_at_0. cbn [find_label]. rewrite Hl.
      destruct (find_label name (c :: cols)) as [i|]; reflexivity.
    + rewrite insert_at_S. cbn [find_label].
      destruct (Value.py_eq c (VStr name)); [reflexivity|].
      rewrite IH by (simpl in Hk; lia).
      destruct (find_label name cols) as [i|]; simpl; auto.
      now rewrite shift_S.
Qed.

Lemma cell_insert_at (v : value) (r : list value) :
  forall k i, (k <= List.length r)%nat ->
  cell (shift k i) (insert_at k v r) = cell i r.
Proof.
  unfold cell. induction r as [|x r IH]; intros k i Hk.
  - assert (k = 0%nat) by (simpl in Hk; lia). subst k. reflexivity.
  - destruct k as [|k]; [reflexivity|].
    rewrite insert_at_S. destruct i as [|i]; [reflexivity|].
    rewrite shift_S. simpl. apply IH. simpl in Hk. lia.
Qed.

Lemma find_skip {A} (f : A -> bool) (above below : list A) (r : A) :
  f r = false -> find f (above ++ r :: below) = find f (above ++ below).
Proof.
  intros Hr. induction above as [|x above IH]; simpl.
  - now rewrite Hr.
  - now rewrite IH.
Qed.

Lemma find_related {A} (R : A -> A -> Prop) (f f' : A -> bool) (l l' : list A) :
  Forall2 R l l' ->
  (forall x x', R x x' -> f' x' = f x) ->
  match find f l, find f' l' with
  | Some x, Some x' => R x x'
  | None, None => True
  | _, _ => False
  end.
Proof.
  intros F Hf. induction F as [|x x' l l' Hx F IH]; simpl; auto.
  rewrite (Hf x x' Hx). destruct (f x); auto.
Qed.

(** An additional row for another department is not read. *)
Lemma actual_average_row (df df' : DataFrame) (above below : list (list value))
      (r : list value) (dept : string) :
  columns df' = columns df ->
  rows df = above ++ below ->
  rows df' = above ++ r :: below ->
  (forall i, find_label "Department" (columns df) = Some i ->
             Value.py_eq (cell i r) (VStr dept) = false) ->
  Check.actual_average (PFrame df') dept = Check.actual_average (PFrame df) dept.
Proof.
  intros Hc Hr Hr' Hd. rewrite !GroupedFacts.actual_average_unfold, Hc, Hr, Hr'.
  destruct (find_label "Department" (columns df)) as [i|]; auto.
  destruct (find_label "Average Duration" (columns df)) as [j|]; auto.
  rewrite find_skip; auto.
Qed.

(** An additional column is not read. *)
Lemma actual_average_column (df df' : DataFrame) (k : nat) (label : value)
      (dept : string) :
  (k <= List.length (columns df))%nat ->
  Value.py_eq label (VStr "Department") = false ->
  Value.py_eq label (VStr "Average Duration") = false ->
  columns df' = insert_at k label (columns df) ->
  Forall2 (fun r r' => (k <= List.length r)%nat /\ exists v, r' = insert_at k v r)
          (rows df) (rows df') ->
  Check.actual_average (PFrame df') dept = Check.actual_average (PFrame df) dept.
Proof.
  intros Hk Hd Ha Hc F. rewrite !GroupedFacts.actual_average_unfold, Hc.
  rewrite !find_label_insert_at by assumption.
  destruct (find_label "Department" (columns df)) as [i|]; auto.
  destruct (find_label "Average Duration" (columns df)) as [j|]; auto.
  cbn [option_map].
  pose proof (find_related _
                (fun r => Value.py_eq (cell i r) (VStr dept))
                (fun r' => Value.py_eq (cell (shift k i) r') (VStr dept))
                _ _ F) as H.
  cbv beta in H.
  destruct (find _ (rows df)) as [r|], (find _ (rows df')) as [r'|].
  - destruct H as (Hl & v & ->).
    + intros x x' (Hl & v & ->). now rewrite cell_insert_at.
    + now rewrite cell_insert_at.
  - destruct H. intros x x' (Hl & v & ->). now rewrite cell_insert_at.
  - destruct H. intros x x' (Hl & v & ->). now rewrite cell_insert_at.
  - reflexivity.
Qed.

Lemma check_expected_dict_ext (r r' : pyobj) (items : list (string * Q)) :
  (forall dept avg, In (dept, avg) items ->
                    Check.actual_average r' dept = Check.actual_average r dept) ->
  Check.check_expected_dict r' items = Check.check_expected_dict r items.
Proof.
  induction items as [|[dept avg] items IH]; intros H; simpl; auto.
  rewrite (H dept avg (or_introl eq_refl)).
  rewrite IH; auto. intros d a Hin. apply (H d a). now right.
Qed.

Lemma more_actual_average (items : list (string * Q)) (df df' : DataFrame) :
  more items df df' ->
  forall dept avg, In (dept, avg) items ->
  Check.actual_average (PFrame df') dept = Check.actual_average (PFrame df) dept.
Proof.
  induction 1 as [df|df df' above below r Hc Hr Hr' Hd
                  |df df' k label Hk Hd Ha Hc F
                  |df1 df2 df3 _ IH12 _ IH23]; intros dept avg Hin.
  - reflexivity.
  - eapply actual_average_row; eauto.
  - eapply actual_average_column; eauto.
  - rewrite (IH23 dept avg Hin). exact (IH12 dept avg Hin).
Qed.

End MoreFacts.

(** C10.  For a scenario with the key [expected_dict], only the first
    row of each expected group is read, and of it only "Department" and
    "Average Duration": putting in rows for departments that are not
    among the expected groups, or columns with other labels, changes
    nothing to the outcome of the comparison; in particular a result
    that passes still passes with such rows and columns added. *)
Theorem C10_other_rows_and_columns_ignored
  (c : case) (items : list (string * Q)) (df df' : DataFrame)
  (H : uses_expected_dict c items)
  (M : Grouped.more items df df') :
  Check.compare c (PFrame df') = Check.compare c (PFrame df) /\
  (Check.compare c (PFrame df) = Ok tt -> Check.compare c (PFrame df') = Ok tt).
Proof.
  assert (E : Check.compare c (PFrame df') = Check.compare c (PFrame df)).
  { destruct H as (H1 & H2 & H3 & H4 & H5).
    unfold Check.compare. rewrite H1, H2, H3, H4, H5.
    apply MoreFacts.check_expected_dict_ext.
    apply MoreFacts.more_actual_average. exact M. }
  split; [exact E|]. intros P. now rewrite E.
Qed.

Lemma C10_witness :
  Check.compare Registry.TC5 (PFrame Tables.averages_more) = Ok tt.
Proof.
  refine (proj2 (C10_other_rows_and_columns_ignored
                   Registry.TC5 [("Cardiology", 45.0%Q); ("Neurology", 30.0%Q)]
                   (Tables.averages 45.0 30.0) Tables.averages_more _ _) _).
  - repeat split.
  - apply Grouped.more_trans
      with (df2 := Pandas.DataFrame_of
                     [[VStr "Cardiology"; VInt 2; VFloat (Fin 45.0)];
                      [VStr "Neurology"; VInt 1; VFloat (Fin 30.0)]]
                     ["Department"; "Visits"; "Average Duration"]).
    + apply Grouped.more_column with (k := 1%nat) (label := VStr "Visits");
        try reflexivity.
      * simpl. lia.
      * repeat constructor. exists (VInt 2). reflexivity.
        exists (VInt 1). reflexivity.
    + apply Grouped.more_row
        with (above := []) (r := [VStr "Ortho"; VInt 2; VFloat (Fin 33.5)])
             (below := [[VStr "Cardiology"; VInt 2; VFloat (Fin 45.0)];
                        [VStr "Neurology"; VInt 1; VFloat (Fin 30.0)]]);
        try reflexivity.
      intros i dept avg [= <-] [[= <- <-]|[[= <- <-]|[]]]; reflexivity.
  - reflexivity.
Defined.

(** ** The row-count-and-cleanliness check *)

Module SortFacts.
Import Pandas.

Lemma ltb_irrefl (x : pyfloat) : Float.ltb x x = false.
Proof.
  destruct x; simpl; auto.
  apply negb_false_iff, Qle_bool_iff, Qle_refl.
Qed.















End SortFacts.

Module CleanFacts.
Import Pandas.



Lemma In_combine_keys {A} (f : A -> value) (l : list A) (k : value) (x : A) :
  In (k, x) (combine (map f l) l) -> k = f x /\ In x l.
Proof.
  induction l as [|y l IH]; simpl; [tauto|].
  intros [[= <- <-]|H]; auto. destruct (IH H). auto.
Qed.





End CleanFacts.




(** ** The full-table equality check *)

Module EqualFacts.
Import Pandas Equal.
#[local] Open Scope Q_scope.














End EqualFacts.





(** ** Further properties of the run *)

Lemma try_body_term_out (Analyzer : AnalyzerClass) (c : case) (w w' : World)
      (r : result unit) :
  try_body Analyzer c w = (w', r) ->
  sys_stdout w = Terminal ->
  term_out w' = term_out w ++ texts_to Stdout (written (new Analyzer)).
Proof.
  unfold try_body, IO.bind, IO.log, IO.run, IO.lift.
  set (w1 := mkWorld (dirs w) (files w) (sys_stdout w) (term_out w) (term_err w)
                     (events w ++ [EvConstruct])).
  intros H Hw.
  destruct (WorldFacts.term_out_emit_all_terminal (written (new Analyzer)) w1 Hw)
    as [T2 _].
  change (term_out w1) with (term_out w) in T2.
  set (w2 := fold_left IO.emit (written (new Analyzer)) w1) in *.
  clearbody w2. clear w1.
  destruct (outcome (new Analyzer)) as [analyzer|e]; cbn [bind] in H.
  2:{ injection H as <- _. exact T2. }
  unfold py_getattr in H.
  destruct (getattr analyzer (func c)) as [method|]; cbn [bind] in H.
  2:{ injection H as <- _. exact T2. }
  pose proof (suppress_invoke_spec method c w2) as S. cbn zeta in S.
  destruct (suppress_output (invoke method c) w2) as [w3 r3]. cbn [fst snd] in S.
  destruct S as (_ & _ & S2 & _).
  destruct r3 as [res|e]; cbn [bind] in H; injection H as <- _;
    rewrite S2; exact T2.
Qed.


Lemma run_case_term_out (Analyzer : AnalyzerClass) (c : case) (w w' : World)
      (r : result string) :
  run_case Analyzer c w = (w', r) ->
  sys_stdout w = Terminal ->
  term_out w' = term_out w ++ texts_to Stdout (written (new Analyzer)).
Proof.
  unfold run_case. destruct (try_body Analyzer c w) as [w1 r1] eqn:E.
  intros H Hw. pose proof (try_body_term_out _ _ _ _ _ E Hw) as T.
  destruct r1 as [[]|e]; [|destruct (is_Exception (e_class e))];
    injection H as <- _; exact T.
Qed.


(** X6.  With the terminal as standard output, a loop in which every
    exception is caught leaves on the console, for each scenario in
    order, what the analyzer's constructor printed (the constructor
    runs outside [suppress_output]) followed by the scenario's line and
    a newline; nothing a method printed is among it. *)
Theorem X6_console_echo
  (Analyzer : AnalyzerClass) (cases : list (section * case))
  (lines : list string) (w w' : World) (out : list string)
  (Hrun : run_cases Analyzer cases lines w = (w', Ok out))
  (Hterm : sys_stdout w = Terminal) :
  term_out w' = term_out w ++ flat_map (fun sc => console_of Analyzer (snd sc)) cases.
Proof.
  revert lines w Hrun Hterm.
  induction cases as [|[s c] cases IH]; intros lines w; simpl.
  - unfold IO.ret. intros [= <- _] _. now rewrite app_nil_r.
  - unfold IO.bind at 1.
    destruct (run_case Analyzer c w) as [w1 r1] eqn:E1.
    pose proof (run_case_term_out _ _ _ _ _ E1) as T1.
    apply run_case_spec in E1.
    destruct E1 as ([[-> _]|(e & -> & _)] & _ & _ & _ & S1); [|discriminate].
    unfold IO.bind at 1.
    pose proof (print_spec (report_line Analyzer c) w1) as P. cbn zeta in P.
    destruct (IO.print (report_line Analyzer c) w1) as [w2 r2]. cbn [fst snd] in P.
    destruct P as (-> & _ & _ & _ & P2).
    unfold IO.bind at 1. unfold IO.log at 1.
    intros H Hw. destruct (P2 (S1 Hw)) as [S2 T2].
    apply IH in H; [|exact S2]. cbn [term_out] in H.
    rewrite H, T2, (T1 Hw). unfold console_of. now rewrite <- !app_assoc.
Qed.

Lemma X6_witness :
  let run := run_cases MoreSample.broken_class Registry.test_cases [] Sample.w0 in
  term_out (fst run)
  = term_out Sample.w0
    ++ flat_map (fun sc => console_of MoreSample.broken_class (snd sc))
                Registry.test_cases.
Proof.
  intros run.
  apply (X6_console_echo MoreSample.broken_class Registry.test_cases []
           Sample.w0 (fst run)
           (map (report_line MoreSample.broken_class) (map snd Registry.test_cases))).
  - vm_compute. reflexivity.
  - reflexivity.
Defined.



Section WholeRun.

Variable python : string -> effect PyModule.
Variable has_loader : string -> bool.
Variables here now : string.



End WholeRun.





Lemma mem_app (p : string) (l1 l2 : list string) :
  Os.mem p (l1 ++ l2) = Os.mem p l1 || Os.mem p l2.
Proof. unfold Os.mem. apply existsb_app. Qed.

Section Completion.

Variable python : string -> effect PyModule.
Variable has_loader : string -> bool.
Variables here now : string.


End Completion.


Section Main.

Variable python : string -> effect PyModule.
Variable has_loader : string -> bool.
Variables here now : string.

(** X11.  Started as a script, the driver looks for [solution.py] in
    the student's workspace.  When that file is not there, the run makes
    the workspace directory, then ends with [FileNotFoundError] naming
    the solution path, and writes no file. *)
Theorem X11_main_without_solution (w : World)
  (Hloader : has_loader (solution_file here) = true)
  (Hdir : Os.lookup (report_dir here) (files w) = None)
  (Hnodir : Os.mem (solution_file here) (report_dir here :: dirs w) = false)
  (Hmissing : Os.lookup (solution_file here) (files w) = None) :
  exists w',
    main python has_loader here now w
    = (w', Raise (Exn FileNotFoundError
                    ("[Errno 2] No such file or directory: '"
                     ++ solution_file here ++ "'"))) /\
    Os.mem (report_dir here) (dirs w') = true /\
    files w' = files w.
Proof.
  unfold main, test_student_code, IO.bind at 1.
  destruct (Os.makedirs (report_dir here) w) as [w1 r1] eqn:M.
  assert (M' := M). apply makedirs_spec in M'.
  destruct M' as (F1 & _ & _ & _ & In1 & _).
  assert (r1 = Ok tt /\ Os.mem (solution_file here) (dirs w1) = false) as [-> D1].
  { revert M. unfold Os.makedirs, IO.bind, IO.log. cbn [dirs files].
    simpl in Hnodir. apply orb_false_iff in Hnodir. destruct Hnodir as [N1 N2].
    destruct (Os.mem (report_dir here) (dirs w)) eqn:E.
    - intros [= <- <-]. auto.
    - rewrite Hdir. intros [= <- <-]. split; auto. cbn [dirs].
      rewrite mem_app, N2. simpl. now rewrite N1. }
  specialize (In1 eq_refl).
  unfold IO.bind at 1.
  unfold load, IO.bind, IO.log, IO.ret, IO.raise, IO.run, read_source.
  rewrite Hloader. io_step. rewrite D1, F1, Hmissing.
  eexists. split; [reflexivity|]. cbn [dirs files]. auto.
Qed.

End Main.

Lemma X11_witness :
  exists w',
    main Sample.python_failing Sample.any_loader Sample.here Sample.now
         MoreSample.w_fresh
    = (w', Raise (Exn FileNotFoundError
                    ("[Errno 2] No such file or directory: '"
                     ++ solution_file Sample.here ++ "'"))) /\
    Os.mem (report_dir Sample.here) (dirs w') = true /\
    files w' = files MoreSample.w_fresh.
Proof.
  apply (X11_main_without_solution Sample.python_failing Sample.any_loader
           Sample.here Sample.now MoreSample.w_fresh); reflexivity.
Defined.

(** ** The three comparisons the claims leave out *)

Module OtherChecks.
Import Pandas.

Lemma set_eqb_true (l1 l2 : list value) :
  Check.set_eqb l1 l2 = true <->
  (forall x, In x l1 -> exists y, In y l2 /\ Value.py_eq x y = true) /\
  (forall y, In y l2 -> exists x, In x l1 /\ Value.py_eq x y = true).
Proof.
  unfold Check.set_eqb. rewrite andb_true_iff, !forallb_forall.
  split; intros [H1 H2]; split; intros z Hz.
  - apply H1 in Hz. apply existsb_exists in Hz. exact Hz.
  - apply H2 in Hz. apply existsb_exists in Hz. exact Hz.
  - apply existsb_exists. auto.
  - apply existsb_exists. auto.
Qed.

Lemma to_floats_Ok (s : list value) (fs : list pyfloat) :
  to_floats s = Ok fs <-> Forall2 (fun v f => Value.to_float v = Some f) s fs.
Proof.
  revert fs. induction s as [|v s IH]; intros fs; simpl.
  - split.
    + intros [= <-]. constructor.
    + intros H. inversion H. reflexivity.
  - destruct (Value.to_float v) as [f|] eqn:E.
    + split.
      * intros H. apply bind_Ok_inv in H. destruct H as (fs' & H1 & [= <-]).
        constructor; auto. now apply IH.
      * intros H. inversion H as [|? f' ? fs' Hf Hs]; subst.
        apply IH in Hs. rewrite Hs. simpl. congruence.
    + split; [discriminate|]. intros H. inversion H; congruence.
Qed.


End OtherChecks.

(** X1.  For a scenario with the key [expected_ids], the comparison
    passes exactly when the result is a table with a column
    "PatientID" whose values, as a set, are the expected ids: each value
    equals an expected id and each expected id occurs.  Hence neither
    the order of the rows nor repeated rows nor other columns matter:
    two results whose "PatientID" columns hold the same values end
    alike. *)
Theorem X1_id_set_check (c : case) (ids : list Z) (result : pyobj)
  (H : uses_expected_ids c ids) :
  (Check.compare c result = Ok tt <->
   exists df col,
     result = PFrame df /\
     Pandas.getitem df "PatientID" = Ok col /\
     (forall v, In v col -> exists i, In i ids /\ Value.py_eq v (VInt i) = true) /\
     (forall i, In i ids -> exists v, In v col /\ Value.py_eq v (VInt i) = true)) /\
  (forall df df' col col',
      Pandas.getitem df "PatientID" = Ok col ->
      Pandas.getitem df' "PatientID" = Ok col' ->
      (forall v, In v col <-> In v col') ->
      Check.compare c (PFrame df') = Check.compare c (PFrame df)).
Proof.
  destruct H as (H1 & H2 & H3 & H4).
  unfold Check.compare. rewrite H1, H2, H3, H4.
  unfold Check.check_expected_ids, Check.subscript. split.
  - destruct result as [df|]; cbn [bind].
    2:{ split; [discriminate|]. intros (df & col & [=] & _). }
    destruct (Pandas.getitem df "PatientID") as [col|e] eqn:G; cbn [bind].
    2:{ split; [discriminate|]. intros (df' & col & [= <-] & G' & _). congruence. }
    rewrite py_assert_Ok, OtherChecks.set_eqb_true. split.
    + intros [A B]. exists df, col. repeat split; auto.
      * intros v Hv. destruct (A v Hv) as (y & Hy & E).
        apply in_map_iff in Hy. destruct Hy as (i & <- & Hi). eauto.
      * intros i Hi. apply (B (VInt i)). now apply in_map.
    + intros (df' & col' & [= <-] & G' & A & B).
      assert (col' = col) by congruence. subst col'. split.
      * intros v Hv. destruct (A v Hv) as (i & Hi & E).
        exists (VInt i). split; auto. now apply in_map.
      * intros y Hy. apply in_map_iff in Hy. destruct Hy as (i & <- & Hi). auto.
  - intros df df' col col' G G' Same. cbn [bind]. rewrite G, G'. cbn [bind].
    f_equal. apply eq_true_iff_eq. rewrite !OtherChecks.set_eqb_true.
    split; intros [A B]; split.
    + intros x Hx. apply A. now apply Same.
    + intros y Hy. destruct (B y Hy) as (x & Hx & E). exists x. split; auto.
      now apply Same.
    + intros x Hx. apply A. now apply Same.
    + intros y Hy. destruct (B y Hy) as (x & Hx & E). exists x. split; auto.
      now apply Same.
Qed.

Lemma X1_witness :
  Check.compare Registry.TC4 (PFrame MoreTables.visitors) = Ok tt.
Proof.
  apply (proj1 (X1_id_set_check Registry.TC4 [201%Z] (PFrame MoreTables.visitors)
                  (conj eq_refl (conj eq_refl (conj eq_refl eq_refl))))).
  exists MoreTables.visitors, [VInt 201; VFloat (Fin 201.0%Q)].
  split; [reflexivity|]. split; [reflexivity|]. split.
  - intros v [<-|[<-|[]]]; exists 201%Z; split; auto; now left.
  - intros i [<-|[]]. exists (VInt 201). split; [now left | reflexivity].
Defined.



Module NumericFacts.
Import Pandas.
#[local] Open Scope Q_scope.





End NumericFacts.



Lemma top_charge_empty (df : DataFrame) :
  rows df = [] ->
  Check.top_charge df
  = match Pandas.find_label "Charges" (columns df) with
    | Some _ => Raise (Exn IndexError "single positional indexer is out-of-bounds")
    | None => Raise (Exn KeyError "'Charges'")
    end.
Proof.
  intros Hempty.
  unfold Check.top_charge, Pandas.sort_values_desc, Pandas.getitem.
  rewrite Hempty.
  destruct (Pandas.find_label "Charges" (columns df)); reflexivity.
Qed.

(** X8.  The row-count-and-cleanliness comparison never passes on a
    table without rows, whatever row count is expected: with an
    expected count of zero the two first assertions hold and reading
    the first row of the sorted table raises [IndexError] (or sorting
    raises [KeyError] when there is no "Charges" column). *)
Theorem X8_empty_table_never_passes (c : case) (n : nat) (df : DataFrame)
  (H : uses_expected_len c n) (Hempty : rows df = []) :
  Check.compare c (PFrame df) <> Ok tt /\
  (n = 0%nat ->
   Check.compare c (PFrame df)
   = match Pandas.find_label "Charges" (columns df) with
     | Some _ => Raise (Exn IndexError "single positional indexer is out-of-bounds")
     | None => Raise (Exn KeyError "'Charges'")
     end).
Proof.
  destruct H as (H1 & H2 & H3 & H4 & H5 & H6).
  unfold Check.compare. rewrite H1, H2, H3, H4, H5, H6.
  unfold Check.check_expected_len, Check.py_len, Check.frame_attr, Pandas.len,
    Pandas.isnull_any.
  rewrite Hempty. cbn [bind List.length existsb negb].
  destruct n as [|n]; cbn [Nat.eqb py_assert bind].
  - rewrite (top_charge_empty df Hempty), Hempty.
    cbn [existsb negb py_assert bind].
    destruct (Pandas.find_label "Charges" (columns df)); cbn [bind];
      (split; [discriminate | reflexivity]).
  - split; [discriminate|]. intros [=].
Qed.

Lemma X8_witness :
  Check.compare Registry.HTC1 (PFrame MoreTables.no_rows) <> Ok tt.
Proof.
  apply (proj1 (X8_empty_table_never_passes Registry.HTC1 3 MoreTables.no_rows
                  (conj eq_refl (conj eq_refl (conj eq_refl (conj eq_refl
                     (conj eq_refl eq_refl)))))
                  eq_refl)).
Defined.



(** X12.  The numeric-column comparison on a result whose number of
    rows is not the number of expected values: numpy broadcasts a
    single row against all the expected values, and raises [ValueError]
    (reported as the scenario's failure) when neither side has exactly
    one element. *)
Theorem X12_numeric_column_length_mismatch
  (c : case) (vals : list Q) (df : DataFrame) (col : list value) (fs : list pyfloat)
  (H : uses_expected_values c vals)
  (Hcol : Pandas.getitem df "CostPerMinute" = Ok col)
  (Hnum : Pandas.to_floats col = Ok fs)
  (Hlen : List.length col <> List.length vals) :
  (List.length col <> 1%nat -> List.length vals <> 1%nat ->
   exists msg, Check.compare c (PFrame df) = Raise (Exn ValueError msg)) /\
  (forall f, fs = [f] ->
     Check.compare c (PFrame df)
     = py_assert (forallb (Float.np_isclose Pandas.rtol Pandas.atol (Float.round2 f))
                          (map Fin vals))).
Proof.
  destruct H as (H1 & H2 & H3).
  unfold Check.compare. rewrite H1, H2, H3.
  unfold Check.check_expected_values, Check.subscript. cbn [bind].
  rewrite Hcol. cbn [bind]. rewrite Hnum. cbn [bind].
  assert (L : List.length fs = List.length col).
  { apply OtherChecks.to_floats_Ok in Hnum. symmetry. eapply Forall2_length; eauto. }
  unfold Pandas.allclose. rewrite !length_map, L.
  destruct (Nat.eqb (List.length col) (List.length vals)) eqn:E.
  { apply Nat.eqb_eq in E. contradiction. }
  split.
  - intros Hc Hv. rewrite <- L in Hc, Hlen. clear L E Hnum.
    destruct fs as [|f [|f' fs]], vals as [|v [|v' vals]]; cbn [map bind];
      cbn [List.length] in *; try contradiction;
      try (eexists; reflexivity).
  - intros f ->. cbn [map bind]. reflexivity.
Qed.

Lemma X12_witness :
  exists msg,
    Check.compare Registry.TC3
      (PFrame (Pandas.DataFrame_of [[VFloat (Fin 33.33%Q)]; [VFloat (Fin 40.0%Q)];
                                    [VFloat (Fin 40.0%Q)]] ["CostPerMinute"]))
    = Raise (Exn ValueError msg).
Proof.
  refine (proj1 (X12_numeric_column_length_mismatch
                   Registry.TC3 [33.33%Q; 40.0%Q]
                   (Pandas.DataFrame_of [[VFloat (Fin 33.33%Q)]; [VFloat (Fin 40.0%Q)];
                                         [VFloat (Fin 40.0%Q)]] ["CostPerMinute"])
                   [VFloat (Fin 33.33%Q); VFloat (Fin 40.0%Q); VFloat (Fin 40.0%Q)]
                   [Fin 33.33%Q; Fin 40.0%Q; Fin 40.0%Q] _ eq_refl eq_refl _) _ _).
  - repeat split.
  - discriminate.
  - discriminate.
  - discriminate.
Defined.
